(** * The chat-completion client of the grant generator (app.py)

    A shallow embedding of class [OllamaAPI]: session construction with its
    retry policy ([_create_session]), the single HTTP request with its
    exception translation ([_make_request]) and the primary/backup generation
    loop ([generate_with_backup]).

    Python values that travel as JSON are the type [value]; exceptions are
    a class with a message, and [except] clauses select by [isinstance] in
    the order they are written.  The network and the [requests] library
    under [Session.post] are an oracle [net] that answers every call from
    the calls made so far; a computation threads the list of calls made. *)

From Stdlib Require Import ZArith Lia.
From Stdlib Require Import Floats.PrimFloat.
From stdpp Require Import base strings gmap pretty.

Set Warnings "-register-all".
Open Scope Z_scope.

(** ** Python values *)

(** What [json.dumps] accepts and [Response.json] produces.  A dict keeps
    its insertion order; its keys are distinct strings. *)
Inductive value : Type :=
  | PyNone
  | PyBool (b : bool)
  | PyInt (z : Z)
  | PyFloat (f : float)
  | PyStr (s : string)
  | PyList (l : list value)
  | PyDict (d : list (string * value)).

(** [type(v).__name__], as it appears in the interpreter's messages. *)
Definition type_name (v : value) : string :=
  match v with
  | PyNone => "NoneType"
  | PyBool _ => "bool"
  | PyInt _ => "int"
  | PyFloat _ => "float"
  | PyStr _ => "str"
  | PyList _ => "list"
  | PyDict _ => "dict"
  end.

(** The entry stored under key [k], if any. *)
Fixpoint dict_lookup (k : string) (d : list (string * value)) : option value :=
  match d with
  | [] => None
  | (k', v) :: rest => if String.eqb k k' then Some v else dict_lookup k rest
  end.

(** ** Exceptions *)

(** The classes of [requests.exceptions] that matter here. *)
Inductive requests_class : Set :=
  | RequestException
  | HTTPError
  | ConnectionError
  | SSLError
  | ProxyError
  | Timeout
  | ConnectTimeout
  | ReadTimeout
  | RetryError
  | TooManyRedirects
  | InvalidURL
  | ChunkedEncodingError
  | InvalidJSONError
  | JSONDecodeError.

(** Builtin classes, [concurrent.futures.TimeoutError] (the [TimeoutError]
    that app.py imports, line 7; the builtin of that name since Python
    3.11, a class of its own before, below [Exception] in both) and the
    classes of [requests]. *)
Inductive exc_class : Set :=
  | BaseException
  | Exception
  | OSError
  | LookupError
  | IndexError
  | KeyError
  | AttributeError
  | TypeError
  | NameError
  | UnboundLocalError
  | ValueError
  | FuturesTimeoutError
  | Requests (c : requests_class).

#[global] Instance requests_class_eq_dec : EqDecision requests_class.
Proof. solve_decision. Defined.

#[global] Instance exc_class_eq_dec : EqDecision exc_class.
Proof. solve_decision. Defined.

(** The direct base classes, as the class statements give them. *)
Definition bases (c : exc_class) : list exc_class :=
  match c with
  | BaseException => []
  | Exception => [BaseException]
  | OSError => [Exception]
  | LookupError => [Exception]
  | IndexError => [LookupError]
  | KeyError => [LookupError]
  | AttributeError => [Exception]
  | TypeError => [Exception]
  | NameError => [Exception]
  | UnboundLocalError => [NameError]
  | ValueError => [Exception]
  | FuturesTimeoutError => [Exception]
  | Requests RequestException => [OSError]
  | Requests HTTPError => [Requests RequestException]
  | Requests ConnectionError => [Requests RequestException]
  | Requests SSLError => [Requests ConnectionError]
  | Requests ProxyError => [Requests ConnectionError]
  | Requests Timeout => [Requests RequestException]
  | Requests ConnectTimeout => [Requests ConnectionError; Requests Timeout]
  | Requests ReadTimeout => [Requests Timeout]
  | Requests RetryError => [Requests RequestException]
  | Requests TooManyRedirects => [Requests RequestException]
  | Requests InvalidURL => [Requests RequestException]
  | Requests ChunkedEncodingError => [Requests RequestException]
  | Requests InvalidJSONError => [Requests RequestException]
  | Requests JSONDecodeError => [Requests InvalidJSONError]
  end.

Fixpoint issubclass_upto (depth : nat) (c d : exc_class) : bool :=
  bool_decide (c = d) ||
  match depth with
  | O => false
  | S depth' => existsb (fun b => issubclass_upto depth' b d) (bases c)
  end.

(** No chain of base classes is longer than five steps. *)
Definition issubclass (c d : exc_class) : bool := issubclass_upto 5 c d.

(** An exception object: its class and [str(e)]. *)
Record exc : Type := PyExc { exc_class_of : exc_class; exc_str : string }.

Definition isinstance (e : exc) (c : exc_class) : bool :=
  issubclass (exc_class_of e) c.

(** ** Results and computations *)

Inductive outcome (A : Type) : Type :=
  | Returned (a : A)
  | Raised (e : exc).
Arguments Returned {A} a.
Arguments Raised {A} e.

#[global] Instance outcome_ret : MRet outcome := fun A a => Returned a.
#[global] Instance outcome_bind : MBind outcome := fun A B f m =>
  match m with
  | Returned a => f a
  | Raised e => Raised e
  end.

(** ** Subscription and [dict.get] *)

(** [v.get(k, dflt)]: only a dict has the method. *)
Definition py_get (v : value) (k : string) (dflt : value) : outcome value :=
  match v with
  | PyDict d => Returned (default dflt (dict_lookup k d))
  | _ => Raised (PyExc AttributeError
           ("'" +:+ type_name v +:+ "' object has no attribute 'get'"))
  end.

(** [v[0]]: the first element of a list, the first character of a str; a
    dict is asked for the key [0], which no dict decoded from JSON holds
    (its keys are strings), and [str] of a [KeyError] is the [repr] of the
    key; nothing else is subscriptable. *)
Definition py_getitem0 (v : value) : outcome value :=
  match v with
  | PyList (x :: _) => Returned x
  | PyList [] => Raised (PyExc IndexError "list index out of range")
  | PyStr (String c _) => Returned (PyStr (String c EmptyString))
  | PyStr EmptyString => Raised (PyExc IndexError "string index out of range")
  | PyDict _ => Raised (PyExc KeyError "0")
  | _ => Raised (PyExc TypeError
           ("'" +:+ type_name v +:+ "' object is not subscriptable"))
  end.

(** ** Sessions and the retry policy *)

(** [urllib3.util.retry.Retry], with the arguments app.py passes. *)
Record Retry : Type := mkRetry {
  total : Z;
  backoff_factor : Z;
  status_forcelist : list Z
}.

(** [requests.adapters.HTTPAdapter(max_retries=...)]. *)
Record HTTPAdapter : Type := mkHTTPAdapter { max_retries : Retry }.

(** [requests.Session]: the adapters mounted by URL prefix and the
    credentials sent with every request. *)
Record Session : Type := mkSession {
  adapters : gmap string HTTPAdapter;
  auth : option (string * string)
}.

(** [HTTPAdapter()]: no retries. *)
Definition default_adapter : HTTPAdapter :=
  mkHTTPAdapter (mkRetry 0 0 []).

(** [requests.Session()]: a default adapter on both schemes, no
    credentials. *)
Definition new_session : Session :=
  mkSession (<["http://" := default_adapter]>
             (<["https://" := default_adapter]> ∅)) None.

(** [session.mount(prefix, adapter)]. *)
Definition mount (prefix : string) (a : HTTPAdapter) (s : Session) : Session :=
  mkSession (<[prefix := a]> (adapters s)) (auth s).

(** [session.auth = credentials]. *)
Definition set_auth (credentials : string * string) (s : Session) : Session :=
  mkSession (adapters s) (Some credentials).

(** app.py, lines 23-35.  The method reads [self.username] and
    [self.password]; [self.session] does not exist yet when it runs. *)
Definition _create_session (username password : string) : Session :=
  let session := new_session in
  let retry_strategy := mkRetry 3 1 [429; 500; 502; 503; 504] in
  let adapter := mkHTTPAdapter retry_strategy in
  let session := mount "http://" adapter session in
  let session := mount "https://" adapter session in
  let session := set_auth (username, password) session in
  session.

(** ** What urllib3 does with the policy *)

(** [Retry.DEFAULT_ALLOWED_METHODS], the methods that a [Retry] built
    without [allowed_methods], as at lines 26-30, lets be retried. *)
Definition DEFAULT_ALLOWED_METHODS : list string :=
  ["HEAD"; "GET"; "PUT"; "DELETE"; "OPTIONS"; "TRACE"].

(** [Retry.RETRY_AFTER_STATUS_CODES]. *)
Definition RETRY_AFTER_STATUS_CODES : list Z := [413; 429; 503].

(** [Retry._is_method_retryable(method)]; [requests] passes the method in
    upper case. *)
Definition _is_method_retryable (method : string) : bool :=
  bool_decide (method ∈ DEFAULT_ALLOWED_METHODS).

(** [Retry.is_retry(method, status_code, has_retry_after)]: whether a
    response with this status is discarded and the request sent again.
    [respect_retry_after_header] is at its default, true. *)
Definition is_retry (policy : Retry) (method : string) (status_code : Z)
  (has_retry_after : bool) : bool :=
  if negb (_is_method_retryable method) then false
  else if bool_decide (status_code ∈ status_forcelist policy) then true
  else bool_decide (total policy ≠ 0) && has_retry_after &&
       bool_decide (status_code ∈ RETRY_AFTER_STATUS_CODES).

(** The failures of the transport that [Retry.increment] tells apart. *)
Inductive transport_error : Set :=
  | connect_error
  | read_error.

(** Whether [Retry.increment] lets a failed request be sent again, while
    retries are left: a connection failure always ([connect] is None), a
    read failure only for a method that may be retried. *)
Definition retries_error (method : string) (error : transport_error) : bool :=
  match error with
  | connect_error => true
  | read_error => _is_method_retryable method
  end.

Record OllamaAPI : Type := mkOllamaAPI {
  base_url : string;
  username : string;
  password : string;
  timeout : Z;
  session : Session
}.

(** app.py, lines 16-21. *)
Definition OllamaAPI_init (base_url username password : string) (timeout : Z)
  : OllamaAPI :=
  mkOllamaAPI base_url username password timeout
    (_create_session username password).

(** The default of the [timeout] parameter. *)
Definition default_timeout : Z := 90.

(** ** The network *)

(** One call of [Session.post]: what is sent, through which session (its
    credentials and adapters), under which time limit. *)
Record HttpCall : Type := mkHttpCall {
  call_method : string;
  call_url : string;
  call_headers : list (string * string);
  call_json : value;
  call_timeout : Z;
  call_session : Session
}.

(** What [Response.json()] finds in the body. *)
Inductive body : Type :=
  | JsonBody (v : value)
  | NotJson (error : string).

Record Response : Type := mkResponse {
  status_code : Z;
  reason : string;
  response_url : string;
  response_body : body
}.

(** What [Session.post] does: it returns a response, raises one of the
    exceptions of [requests], or raises a [ValueError] that [requests]
    does not wrap: the library refuses an argument before anything is
    sent, as urllib3 does for a timeout that is not positive. *)
Inductive http_outcome : Type :=
  | Responded (r : Response)
  | Failed (c : requests_class) (message : string)
  | Invalid (message : string).

(** A computation reads the calls made so far and adds its own. *)
Definition M (A : Type) : Type := list HttpCall -> outcome A * list HttpCall.

#[global] Instance M_ret : MRet M := fun A a calls => (Returned a, calls).
#[global] Instance M_bind : MBind M := fun A B f m calls =>
  match m calls with
  | (Returned a, calls') => f a calls'
  | (Raised e, calls') => (Raised e, calls')
  end.

Definition raise {A : Type} (e : exc) : M A := fun calls => (Raised e, calls).

Definition lift {A : Type} (o : outcome A) : M A := fun calls => (o, calls).

(** The [except] clauses of a [try], tried in the order written; an
    exception that matches none of them propagates. *)
Fixpoint handle {A : Type} (clauses : list (exc_class * (exc -> M A)))
  (e : exc) : M A :=
  match clauses with
  | [] => raise e
  | (c, handler) :: rest =>
      if isinstance e c then handler e else handle rest e
  end.

Definition try_except {A : Type} (block : M A)
  (clauses : list (exc_class * (exc -> M A))) : M A :=
  fun calls =>
    match block calls with
    | (Returned a, calls') => (Returned a, calls')
    | (Raised e, calls') => handle clauses e calls'
    end.

(** [response.raise_for_status()]: an [HTTPError] for the status codes 400
    to 599, nothing for any other. *)
Definition raise_for_status (r : Response) : M unit :=
  let code := status_code r in
  if (400 <=? code) && (code <? 500) then
    raise (PyExc (Requests HTTPError)
             (pretty code +:+ " Client Error: " +:+ reason r +:+
              " for url: " +:+ response_url r))
  else if (500 <=? code) && (code <? 600) then
    raise (PyExc (Requests HTTPError)
             (pretty code +:+ " Server Error: " +:+ reason r +:+
              " for url: " +:+ response_url r))
  else mret tt.

(** [response.json()]: the decoded body, or [requests]'s
    [JSONDecodeError]. *)
Definition response_json (r : Response) : M value :=
  match response_body r with
  | JsonBody v => mret v
  | NotJson error => raise (PyExc (Requests JSONDecodeError) error)
  end.

Section Client.

(** The network and [requests] beneath [Session.post]: the outcome of a
    call, given the calls made before it. *)
Variable net : list HttpCall -> HttpCall -> http_outcome.

(** [session.post(url, headers=headers, json=json, timeout=timeout)]. *)
Definition session_post (s : Session) (url : string)
  (headers : list (string * string)) (json : value) (timeout : Z)
  : M Response :=
  fun calls =>
    let call := mkHttpCall "POST" url headers json timeout s in
    match net calls call with
    | Responded r => (Returned r, calls ++ [call])
    | Failed c message => (Raised (PyExc (Requests c) message), calls ++ [call])
    | Invalid message => (Raised (PyExc ValueError message), calls ++ [call])
    end.

(** app.py, lines 37-49. *)
Definition _make_request (self : OllamaAPI) (payload : value) : M value :=
  let headers := [("Content-Type", "application/json")] in
  try_except
    (response ← session_post (session self)
                  (base_url self +:+ "/v1/chat/completions")
                  headers payload (timeout self);
     _ ← raise_for_status response;
     response_json response)
    [ (Requests Timeout,
       fun _ => raise (PyExc FuturesTimeoutError "Request timed out"));
      (Requests RequestException,
       fun e => raise (PyExc Exception ("API request failed: " +:+ exc_str e))) ].

(** app.py, lines 53-69. *)
Definition payloads (messages : list value) (temperature : float) : list value :=
  [ PyDict [ ("model", PyStr "llama3.2");
             ("messages", PyList messages);
             ("temperature", PyFloat temperature);
             ("max_tokens", PyInt 2000);
             ("stream", PyBool false) ];
    PyDict [ ("model", PyStr "llama3.2");
             ("messages", PyList messages);
             ("temperature", PyFloat 0.5);
             ("max_tokens", PyInt 1000);
             ("stream", PyBool false) ] ].

(** app.py, line 73:
    [response.get("choices", [{}])[0].get("message", {}).get("content", "")]. *)
Definition extract_content (response : value) : outcome value :=
  choices ← py_get response "choices" (PyList [PyDict []]);
  first ← py_getitem0 choices;
  message ← py_get first "message" (PyDict []);
  py_get message "content" (PyStr "").

(** The body of the [try] at lines 72-74. *)
Definition attempt (self : OllamaAPI) (payload : value) : M (value * value) :=
  response ← _make_request self payload;
  content ← lift (extract_content response);
  mret (content, response).

(** The [for] loop of lines 70-77 over what is left of [payloads], and the
    [raise] of line 78 after it.  [last_error] is unbound until a first
    attempt has failed. *)
Fixpoint try_payloads (self : OllamaAPI) (rest : list value)
  (last_error : option string) : M (value * value) :=
  match rest with
  | payload :: rest' =>
      try_except (attempt self payload)
        [ (Exception, fun e => try_payloads self rest' (Some (exc_str e))) ]
  | [] =>
      match last_error with
      | Some description =>
          raise (PyExc Exception
                   ("All generation attempts failed. Last error: " +:+ description))
      | None =>
          raise (PyExc UnboundLocalError
                   "cannot access local variable 'last_error' where it is not associated with a value")
      end
  end.

(** app.py, lines 51-78. *)
Definition generate_with_backup (self : OllamaAPI) (messages : list value)
  (temperature : float) : M (value * value) :=
  try_payloads self (payloads messages temperature) None.

End Client.

(** ** Vocabulary of the statements *)

(** The call that [_make_request] hands to [Session.post] for [payload]. *)
Definition post_call (self : OllamaAPI) (payload : value) : HttpCall :=
  mkHttpCall "POST" (base_url self +:+ "/v1/chat/completions")
    [("Content-Type", "application/json")] payload (timeout self)
    (session self).

(** The status codes that [raise_for_status] turns into an [HTTPError]. *)
Definition is_error_status (code : Z) : bool :=
  (400 <=? code) && (code <? 600).

(** [str] of that [HTTPError]. *)
Definition status_error_text (r : Response) : string :=
  pretty (status_code r) +:+
  (if status_code r <? 500 then " Client Error: " else " Server Error: ") +:+
  reason r +:+ " for url: " +:+ response_url r.

(** The exceptions of [requests] that the first [except] clause of
    [_make_request] selects. *)
Definition is_timeout (c : requests_class) : bool :=
  issubclass (Requests c) (Requests Timeout).

(** The entry of a dict under a key; nothing for a value that is no dict. *)
Definition dict_field (v : value) (k : string) : option value :=
  match v with
  | PyDict d => dict_lookup k d
  | _ => None
  end.

(** The two kinds of error that [_make_request] raises, and the one that
    [generate_with_backup] raises. *)
Definition TimeoutErr : exc := PyExc FuturesTimeoutError "Request timed out".

Definition RequestFailed (cause : string) : exc :=
  PyExc Exception ("API request failed: " +:+ cause).

Definition AllAttemptsFailed (description : string) : exc :=
  PyExc Exception ("All generation attempts failed. Last error: " +:+ description).

(** A body of the expected shape is missing the text when [choices] is
    absent, when the first choice has no [message], or when that message
    has no [content]. *)
Inductive lacks_content : value -> Prop :=
  | lacks_choices d :
      dict_lookup "choices" d = None ->
      lacks_content (PyDict d)
  | lacks_message d choice others :
      dict_lookup "choices" d = Some (PyList (PyDict choice :: others)) ->
      dict_lookup "message" choice = None ->
      lacks_content (PyDict d)
  | lacks_content_field d choice others message :
      dict_lookup "choices" d = Some (PyList (PyDict choice :: others)) ->
      dict_lookup "message" choice = Some (PyDict message) ->
      dict_lookup "content" message = None ->
      lacks_content (PyDict d).

(** ** A scenario: the call of [PostGenerator.generate_grant_section] *)

Module Scenario.

(** The messages of lines 91-94, for empty grant details. *)
Definition messages : list value :=
  [ PyDict [ ("role", PyStr "system");
             ("content", PyStr "You are an expert grant writer.") ];
    PyDict [ ("role", PyStr "user");
             ("content",
              PyStr "Create a grant section using these details: {}") ] ].

(** The float that Python reads from the literal 0.7 (line 111). *)
Definition temperature : float := 0x1.6666666666666p-1%float.

Definition api : OllamaAPI :=
  OllamaAPI_init "https://theaisource-u29564.vm.elestio.app:57987"
    "root" "secret" default_timeout.

Definition endpoint : string :=
  "https://theaisource-u29564.vm.elestio.app:57987/v1/chat/completions".

(** A completion whose first choice carries [text]. *)
Definition completion (text : string) : value :=
  PyDict [ ("choices",
            PyList [ PyDict [ ("message",
                               PyDict [ ("role", PyStr "assistant");
                                        ("content", PyStr text) ]) ] ]) ].

Definition ok (v : value) : http_outcome :=
  Responded (mkResponse 200 "OK" endpoint (JsonBody v)).

Definition unavailable : http_outcome :=
  Responded (mkResponse 503 "Service Unavailable" endpoint
               (NotJson "Expecting value: line 1 column 1 (char 0)")).

Definition not_found : http_outcome :=
  Responded (mkResponse 404 "Not Found" endpoint
               (NotJson "Expecting value: line 1 column 1 (char 0)")).

Definition read_timeout : http_outcome :=
  Failed ReadTimeout "HTTPSConnectionPool: Read timed out. (read timeout=90)".

Definition refused : http_outcome :=
  Failed ConnectionError "HTTPSConnectionPool: Max retries exceeded".





(** A network that gives the same answer to every call. *)
Definition always (o : http_outcome) : list HttpCall -> HttpCall -> http_outcome :=
  fun _ _ => o.

(** A network that answers the first call with [o1] and the later ones
    with [o2]. *)
Definition first_then (o1 o2 : http_outcome)
  : list HttpCall -> HttpCall -> http_outcome :=
  fun calls _ => match calls with [] => o1 | _ => o2 end.

End Scenario.

(** ** The session state *)

(** The dict [defaults] of lines 105-113, in the order written;
    [st.session_state] itself is a map from names to values. *)
Definition defaults : list (string * value) :=
  [ ("messages", PyList []);
    ("api_url", PyStr "https://theaisource-u29564.vm.elestio.app:57987");
    ("username", PyStr "root");
    ("password", PyStr "eZfLK3X4-SX0i-UmgUBe6E");
    ("selected_model", PyStr "llama3.2");
    ("temperature", PyFloat 0x1.6666666666666p-1);
    ("max_tokens", PyInt 2000) ].

(** The loop of lines 114-116 over what is left of [defaults.items()]. *)
Fixpoint set_missing (items : list (string * value))
  (state : gmap string value) : gmap string value :=
  match items with
  | [] => state
  | (key, v) :: rest =>
      set_missing rest
        (match state !! key with
         | None => <[key := v]> state
         | Some _ => state
         end)
  end.

(** app.py, lines 103-116. *)
Definition init_session_state (state : gmap string value) : gmap string value :=
  set_missing defaults state.

(** ** The page *)

(** What Streamlit is asked to draw, call by call. *)
Inductive ui_event : Type :=
  | st_set_page_config (page_title page_icon layout : string)
  | st_title (text : string)
  | st_tabs (labels : list string)
  | st_markdown (text : string)
  | st_columns (n : Z)
  | st_text_input (label : string)
  | st_number_input (label : string) (min_value : Z)
  | st_date_input (label : string)
  | st_text_area (label : string) (content : option value) (height : Z)
  | st_button (label : string)
  | st_spinner (text : string)
  | st_error (text : string).

(** What the visitor has entered in the widgets, by widget label; for the
    date picker, the [isoformat()] of the date picked. *)
Record Browser : Type := mkBrowser {
  text_input_value : string -> string;
  number_input_value : string -> value;
  date_input_isoformat : string -> string;
  text_area_value : string -> string;
  button_pressed : string -> bool
}.

(** The world of a script run: the session state, the HTTP calls made and
    the page drawn so far. *)
Record App : Type := mkApp {
  session_state : gmap string value;
  http_calls : list HttpCall;
  page : list ui_event
}.

(** A step of the script.  [None]: the run has left what is modelled, a
    value of another type standing where an annotation of [OllamaAPI]
    requires a [str] or a [float]. *)
Definition Run (A : Type) : Type := App -> option (outcome A * App).

#[global] Instance Run_ret : MRet Run := fun A a w => Some (Returned a, w).
#[global] Instance Run_bind : MBind Run := fun A B f m w =>
  match m w with
  | Some (Returned a, w') => f a w'
  | Some (Raised e, w') => Some (Raised e, w')
  | None => None
  end.

Definition run_raise {A : Type} (e : exc) : Run A := fun w => Some (Raised e, w).

Definition unmodelled {A : Type} : Run A := fun _ => None.

(** A computation that touches nothing. *)
Definition run_outcome {A : Type} (o : outcome A) : Run A := fun w => Some (o, w).

(** A Streamlit call that draws. *)
Definition show (e : ui_event) : Run unit :=
  fun w => Some (Returned tt,
                 mkApp (session_state w) (http_calls w) (page w ++ [e])).

(** A computation of the client, run on the calls made so far. *)
Definition network {A : Type} (m : M A) : Run A :=
  fun w =>
    let '(o, calls) := m (http_calls w) in
    Some (o, mkApp (session_state w) calls (page w)).

(** An update of the session state. *)
Definition update_session (f : gmap string value -> gmap string value)
  : Run unit :=
  fun w => Some (Returned tt,
                 mkApp (f (session_state w)) (http_calls w) (page w)).

(** [try] and [except] for a step of the script. *)
Fixpoint run_handle {A : Type} (clauses : list (exc_class * (exc -> Run A)))
  (e : exc) : Run A :=
  match clauses with
  | [] => run_raise e
  | (c, handler) :: rest =>
      if isinstance e c then handler e else run_handle rest e
  end.

Definition run_try {A : Type} (block : Run A)
  (clauses : list (exc_class * (exc -> Run A))) : Run A :=
  fun w =>
    match block w with
    | Some (Returned a, w') => Some (Returned a, w')
    | Some (Raised e, w') => run_handle clauses e w'
    | None => None
    end.

Record PostGenerator : Type := mkPostGenerator { api : OllamaAPI }.

Section Script.

(** The network beneath the client. *)
Variable net : list HttpCall -> HttpCall -> http_outcome.

(** [json.dumps(..., indent=2)]: the text, or the exception that the
    encoder raises, such as the [ValueError] for an int with more digits
    than the interpreter converts. *)
Variable json_dumps : value -> outcome string.

(** The text of the [AttributeError] that Streamlit raises for a name
    that the session state does not hold. *)
Variable missing_attribute : string -> string.

(** The visitor. *)
Variable browser : Browser.

(** [st.session_state.<name>]. *)
Definition session_getattr (name : string) : Run value :=
  fun w =>
    match session_state w !! name with
    | Some v => Some (Returned v, w)
    | None => Some (Raised (PyExc AttributeError (missing_attribute name)), w)
    end.

(** app.py, lines 82-87; the client gets the default timeout. *)
Definition PostGenerator_init : Run PostGenerator :=
  api_url ← session_getattr "api_url";
  username ← session_getattr "username";
  password ← session_getattr "password";
  match api_url, username, password with
  | PyStr base_url, PyStr username, PyStr password =>
      mret (mkPostGenerator
              (OllamaAPI_init base_url username password default_timeout))
  | _, _, _ => unmodelled
  end.

(** The list [messages] of lines 91-94, around the text that [json.dumps]
    made of the details. *)
Definition grant_messages (dumped : string) : list value :=
  [ PyDict [ ("role", PyStr "system");
             ("content", PyStr "You are an expert grant writer.") ];
    PyDict [ ("role", PyStr "user");
             ("content",
              PyStr ("Create a grant section using these details: " +:+
                     dumped)) ] ].

(** app.py, lines 89-100.  The messages are built, and [json.dumps]
    called, before the [try] of line 95 is entered. *)
Definition generate_grant_section (self : PostGenerator) (grant_details : value)
  : Run value :=
  dumped ← run_outcome (json_dumps grant_details);
  let messages := grant_messages dumped in
  run_try
    (temperature ← session_getattr "temperature";
     match temperature with
     | PyFloat temperature =>
         result ← network
                    (generate_with_backup net (api self) messages temperature);
         mret (fst result)
     | _ => unmodelled
     end)
    [ (Exception,
       fun e =>
         _ ← show (st_error ("Error generating grant section: " +:+ exc_str e));
         mret (PyStr "Unable to generate grant section. Please try again.")) ].

(** app.py, lines 148-151. *)
Definition display_generated_grant_section (grant_section : value) : Run unit :=
  _ ← show (st_markdown "### ğŸ“ Generated Grant Section");
  show (st_text_area "Grant Section Content" (Some grant_section) 200).

(** The dict [grant_details] of lines 135-141. *)
Definition grant_details_dict (project_name organization_name : string)
  (funding_goal : value) (deadline project_description : string) : value :=
  PyDict [ ("project_name", PyStr project_name);
           ("organization_name", PyStr organization_name);
           ("funding_goal", funding_goal);
           ("deadline", PyStr deadline);
           ("project_description", PyStr project_description) ].

(** The widgets of lines 121-131, which every run draws. *)
Definition form_widgets : list ui_event :=
  [ st_markdown "### ğŸ¯ Grant Section Generator";
    st_columns 2;
    st_text_input "Project Name";
    st_text_input "Organization Name";
    st_number_input "Funding Goal ($)" 0;
    st_date_input "Submission Deadline";
    st_text_area "Project Description" None 150;
    st_button "Generate Grant Section" ].

(** app.py, lines 119-145. *)
Definition create_grant_interface : Run unit :=
  _ ← show (st_markdown "### ğŸ¯ Grant Section Generator");
  _ ← show (st_columns 2);
  _ ← show (st_text_input "Project Name");
  let project_name := text_input_value browser "Project Name" in
  _ ← show (st_text_input "Organization Name");
  let organization_name := text_input_value browser "Organization Name" in
  _ ← show (st_number_input "Funding Goal ($)" 0);
  let funding_goal := number_input_value browser "Funding Goal ($)" in
  _ ← show (st_date_input "Submission Deadline");
  let deadline := date_input_isoformat browser "Submission Deadline" in
  _ ← show (st_text_area "Project Description" None 150);
  let project_description := text_area_value browser "Project Description" in
  _ ← show (st_button "Generate Grant Section");
  if button_pressed browser "Generate Grant Section" then
    _ ← show (st_spinner "Generating your grant section...");
    run_try
      (generator ← PostGenerator_init;
       let grant_details :=
         grant_details_dict project_name organization_name funding_goal
           deadline project_description in
       grant_section ← generate_grant_section generator grant_details;
       display_generated_grant_section grant_section)
      [ (Exception,
         fun e =>
           show (st_error ("Failed to generate grant section: " +:+ exc_str e))) ]
  else mret tt.

(** What [display_generated_grant_section] draws for a text. *)
Definition result_widgets (grant_section : value) : list ui_event :=
  [ st_markdown "### ğŸ“ Generated Grant Section";
    st_text_area "Grant Section Content" (Some grant_section) 200 ].

(** What [main] draws before it enters the first tab. *)
Definition main_widgets : list ui_event :=
  [ st_set_page_config "Professional Social Media and Grant Generator"
      "ğŸŒ" "wide";
    st_title "ğŸŒ Professional Social Media & Grant Generator";
    st_tabs ["Create Post"; "Grant Generator"; "Post History"] ].

(** The functions without parameters that app.py defines at module level,
    [main] apart.  The module binds no other name that [main] calls: not
    by an import (lines 1-11), not by a [def] or [class]. *)
Definition module_functions : list (string * Run unit) :=
  [ ("init_session_state", update_session init_session_state);
    ("create_grant_interface", create_grant_interface) ].

Fixpoint find_function (name : string) (table : list (string * Run unit))
  : option (Run unit) :=
  match table with
  | [] => None
  | (name', f) :: rest =>
      if String.eqb name name' then Some f else find_function name rest
  end.

(** A call [name()] of a global name: the function bound to it, or
    [NameError] for a name that is bound nowhere. *)
Definition call_global (name : string) : Run unit :=
  match find_function name module_functions with
  | Some f => f
  | None => run_raise (PyExc NameError ("name '" +:+ name +:+ "' is not defined"))
  end.

(** app.py, lines 154-174. *)
Definition main : Run unit :=
  _ ← show (st_set_page_config "Professional Social Media and Grant Generator"
              "ğŸŒ" "wide");
  _ ← call_global "init_session_state";
  _ ← show (st_title "ğŸŒ Professional Social Media & Grant Generator");
  _ ← show (st_tabs ["Create Post"; "Grant Generator"; "Post History"]);
  _ ← call_global "create_post_interface";
  _ ← call_global "create_grant_interface";
  call_global "display_post_history".

End Script.

(** ** A visit to the grant tab *)

Module Visit.

Definition browser : Browser :=
  mkBrowser
    (fun label => if String.eqb label "Project Name" then "Reading Room"
                  else "Friends of the Library")
    (fun _ => PyInt 5000)
    (fun _ => "2025-06-30")
    (fun _ => "Evening literacy classes")
    (fun _ => true).

(** The same visitor before the button is pressed. *)
Definition idle : Browser :=
  mkBrowser (text_input_value browser) (number_input_value browser)
    (date_input_isoformat browser) (text_area_value browser) (fun _ => false).

Definition details : value :=
  grant_details_dict "Reading Room" "Friends of the Library" (PyInt 5000)
    "2025-06-30" "Evening literacy classes".

(** A stand-in for [json.dumps]: the keys of a dict. *)
Definition dumps (v : value) : outcome string :=
  match v with
  | PyDict d => Returned ("{ " +:+ String.concat ", " (map fst d) +:+ " }")
  | _ => Returned "null"
  end.

(** The text it makes of [details]. *)
Definition dumped : string :=
  "{ project_name, organization_name, funding_goal, deadline, project_description }".

(** An encoder that meets an int beyond the digit limit. *)
Definition overlong (v : value) : outcome string :=
  Raised (PyExc ValueError
            "Exceeds the limit (4300 digits) for integer string conversion").

Definition missing_attribute (name : string) : string :=
  "st.session_state has no attribute '" +:+ name +:+ "'".

(** The world before the first run of the script, and after
    [init_session_state]. *)
Definition fresh : App := mkApp ∅ [] [].

Definition ready : App := mkApp (init_session_state ∅) [] [].

(** The client that [PostGenerator()] builds in [ready]. *)
Definition client : OllamaAPI :=
  OllamaAPI_init "https://theaisource-u29564.vm.elestio.app:57987" "root"
    "eZfLK3X4-SX0i-UmgUBe6E" default_timeout.

End Visit.

(** * Properties *)

Section ClientProperties.

Variable net : list HttpCall -> HttpCall -> http_outcome.

(** ** One request *)

(** Settles the comparisons of a status code against 400, 500 and 600. *)
Ltac status_cases r :=
  destruct (Z.leb_spec 400 (status_code r)), (Z.ltb_spec (status_code r) 500),
    (Z.leb_spec 500 (status_code r)), (Z.ltb_spec (status_code r) 600);
  simpl; try discriminate; try lia.

Ltac enter_request self payload Hnet :=
  unfold _make_request, try_except, mbind, M_bind, session_post;
  fold (post_call self payload); rewrite Hnet;
  unfold raise_for_status, response_json.

Lemma make_request_json self payload calls r v :
  net calls (post_call self payload) = Responded r ->
  is_error_status (status_code r) = false ->
  response_body r = JsonBody v ->
  _make_request net self payload calls
  = (Returned v, calls ++ [post_call self payload]).
Proof.
  intros Hnet Hst Hbody. enter_request self payload Hnet.
  rewrite Hbody. revert Hst. unfold is_error_status.
  status_cases r; reflexivity.
Qed.

Lemma make_request_not_json self payload calls r error :
  net calls (post_call self payload) = Responded r ->
  is_error_status (status_code r) = false ->
  response_body r = NotJson error ->
  _make_request net self payload calls
  = (Raised (RequestFailed error), calls ++ [post_call self payload]).
Proof.
  intros Hnet Hst Hbody. enter_request self payload Hnet.
  rewrite Hbody. revert Hst. unfold is_error_status.
  status_cases r; reflexivity.
Qed.

Lemma make_request_error_status self payload calls r :
  net calls (post_call self payload) = Responded r ->
  is_error_status (status_code r) = true ->
  _make_request net self payload calls
  = (Raised (RequestFailed (status_error_text r)),
     calls ++ [post_call self payload]).
Proof.
  intros Hnet Hst. enter_request self payload Hnet.
  revert Hst. unfold is_error_status, status_error_text.
  status_cases r; reflexivity.
Qed.

Lemma make_request_timeout self payload calls c message :
  net calls (post_call self payload) = Failed c message ->
  is_timeout c = true ->
  _make_request net self payload calls
  = (Raised TimeoutErr, calls ++ [post_call self payload]).
Proof.
  intros Hnet Hc. enter_request self payload Hnet.
  destruct c; try discriminate Hc; reflexivity.
Qed.

Lemma make_request_failed self payload calls c message :
  net calls (post_call self payload) = Failed c message ->
  is_timeout c = false ->
  _make_request net self payload calls
  = (Raised (RequestFailed message), calls ++ [post_call self payload]).
Proof.
  intros Hnet Hc. enter_request self payload Hnet.
  destruct c; try discriminate Hc; reflexivity.
Qed.

Lemma make_request_invalid self payload calls message :
  net calls (post_call self payload) = Invalid message ->
  _make_request net self payload calls
  = (Raised (PyExc ValueError message), calls ++ [post_call self payload]).
Proof. intros Hnet. enter_request self payload Hnet. reflexivity. Qed.

(** Whatever the network does, the request ends in one of four ways,
    having made its one call. *)
Lemma make_request_cases self payload calls :
  (exists v, _make_request net self payload calls
             = (Returned v, calls ++ [post_call self payload])) \/
  _make_request net self payload calls
  = (Raised TimeoutErr, calls ++ [post_call self payload]) \/
  (exists cause, _make_request net self payload calls
                 = (Raised (RequestFailed cause),
                    calls ++ [post_call self payload])) \/
  (exists message, _make_request net self payload calls
                   = (Raised (PyExc ValueError message),
                      calls ++ [post_call self payload])).
Proof.
  destruct (net calls (post_call self payload))
    as [r | c message | message] eqn:Hnet.
  - destruct (is_error_status (status_code r)) eqn:Hst.
    + right; right; left. eauto using make_request_error_status.
    + destruct (response_body r) as [v | error] eqn:Hbody.
      * left. eauto using make_request_json.
      * right; right; left. eauto using make_request_not_json.
  - destruct (is_timeout c) eqn:Hc.
    + right; left. eauto using make_request_timeout.
    + right; right; left. eauto using make_request_failed.
  - right; right; right. eauto using make_request_invalid.
Qed.

Lemma make_request_calls self payload calls :
  snd (_make_request net self payload calls)
  = calls ++ [post_call self payload].
Proof.
  destruct (make_request_cases self payload calls)
    as [[v ->]|[->|[[cause ->]|[message ->]]]]; reflexivity.
Qed.

Lemma make_request_raises self payload calls e calls' :
  _make_request net self payload calls = (Raised e, calls') ->
  e = TimeoutErr \/ (exists cause, e = RequestFailed cause) \/
  exists message, e = PyExc ValueError message.
Proof.
  destruct (make_request_cases self payload calls)
    as [[v ->]|[->|[[cause ->]|[message ->]]]]; intros [= <- _]; eauto.
Qed.

(** ** One attempt: a request and the extraction of its text *)

Lemma py_get_raises v k dflt e :
  py_get v k dflt = Raised e -> isinstance e Exception = true.
Proof. destruct v; simpl; intros H; inversion H; reflexivity. Qed.

Lemma py_getitem0_raises v e :
  py_getitem0 v = Raised e -> isinstance e Exception = true.
Proof.
  destruct v as [| | | |[|c s]|[|x l]|d]; simpl; intros H; inversion H;
    reflexivity.
Qed.

Lemma extract_content_raises response e :
  extract_content response = Raised e -> isinstance e Exception = true.
Proof.
  unfold extract_content, mbind, outcome_bind.
  destruct (py_get response _ _) as [choices|e1] eqn:H1;
    [|intros H; inversion H; subst; eauto using py_get_raises].
  destruct (py_getitem0 choices) as [first|e2] eqn:H2;
    [|intros H; inversion H; subst; eauto using py_getitem0_raises].
  destruct (py_get first _ _) as [message|e3] eqn:H3;
    [|intros H; inversion H; subst; eauto using py_get_raises].
  apply py_get_raises.
Qed.

Lemma attempt_eq self payload calls :
  attempt net self payload calls
  = (match fst (_make_request net self payload calls) with
     | Returned response =>
         match extract_content response with
         | Returned content => Returned (content, response)
         | Raised e => Raised e
         end
     | Raised e => Raised e
     end, calls ++ [post_call self payload]).
Proof.
  unfold attempt, mbind, M_bind.
  pose proof (make_request_calls self payload calls) as Hc.
  destruct (_make_request net self payload calls) as [[response|e] calls'];
    simpl in *; subst calls'; [|reflexivity].
  unfold lift. destruct (extract_content response); reflexivity.
Qed.

Lemma attempt_raises self payload calls e :
  fst (attempt net self payload calls) = Raised e ->
  isinstance e Exception = true.
Proof.
  rewrite attempt_eq. simpl.
  destruct (_make_request net self payload calls) as [[response|e'] calls'] eqn:Hr;
    simpl.
  - destruct (extract_content response) eqn:He; intros H; inversion H; subst.
    eauto using extract_content_raises.
  - intros H; inversion H; subst.
    destruct (make_request_raises _ _ _ _ _ Hr)
      as [->|[[cause ->]|[message ->]]]; reflexivity.
Qed.

(** ** The loop over the payloads *)

Lemma try_payloads_returned self payload rest last_error calls x :
  fst (attempt net self payload calls) = Returned x ->
  try_payloads net self (payload :: rest) last_error calls
  = (Returned x, calls ++ [post_call self payload]).
Proof.
  intros H. simpl. unfold try_except.
  rewrite attempt_eq in *. simpl in H. rewrite H. reflexivity.
Qed.

Lemma try_payloads_raised self payload rest last_error calls e :
  fst (attempt net self payload calls) = Raised e ->
  try_payloads net self (payload :: rest) last_error calls
  = try_payloads net self rest (Some (exc_str e))
      (calls ++ [post_call self payload]).
Proof.
  intros H. pose proof (attempt_raises _ _ _ _ H) as Hcls.
  simpl. unfold try_except.
  rewrite attempt_eq in *. simpl in H. rewrite H. simpl. rewrite Hcls.
  reflexivity.
Qed.

Lemma try_payloads_exhausted self description calls :
  try_payloads net self [] (Some description) calls
  = (Raised (AllAttemptsFailed description), calls).
Proof. reflexivity. Qed.

(** What a request that returned or raised makes of the attempt. *)
Lemma attempt_request_returned self payload calls response content :
  fst (_make_request net self payload calls) = Returned response ->
  extract_content response = Returned content ->
  fst (attempt net self payload calls) = Returned (content, response).
Proof. intros Hr He. rewrite attempt_eq. simpl. rewrite Hr, He. reflexivity. Qed.

Lemma attempt_extraction_raised self payload calls response e :
  fst (_make_request net self payload calls) = Returned response ->
  extract_content response = Raised e ->
  fst (attempt net self payload calls) = Raised e.
Proof. intros Hr He. rewrite attempt_eq. simpl. rewrite Hr, He. reflexivity. Qed.

Lemma attempt_request_raised self payload calls e :
  fst (_make_request net self payload calls) = Raised e ->
  fst (attempt net self payload calls) = Raised e.
Proof. intros Hr. rewrite attempt_eq. simpl. rewrite Hr. reflexivity. Qed.

(** Two payloads are built, and the requests made are for the first, or
    for the first and then the second. *)
Lemma generate_calls self messages temperature primary backup calls :
  payloads messages temperature = [primary; backup] ->
  snd (generate_with_backup net self messages temperature calls)
    = calls ++ [post_call self primary] \/
  snd (generate_with_backup net self messages temperature calls)
    = calls ++ [post_call self primary; post_call self backup].
Proof.
  intros Hp. unfold generate_with_backup. rewrite Hp.
  destruct (fst (attempt net self primary calls)) as [x|e] eqn:H1.
  - left. rewrite (try_payloads_returned _ _ _ _ _ _ H1). reflexivity.
  - right. rewrite (try_payloads_raised _ _ _ _ _ _ H1).
    destruct (fst (attempt net self backup (calls ++ [post_call self primary])))
      as [x|e'] eqn:H2.
    + rewrite (try_payloads_returned _ _ _ _ _ _ H2).
      simpl. rewrite <- app_assoc. reflexivity.
    + rewrite (try_payloads_raised _ _ _ _ _ _ H2).
      simpl. rewrite <- app_assoc. reflexivity.
Qed.

End ClientProperties.

(** * The contract of the client *)

(** ** Construction *)

(** C7.  The policy that construction mounts on both URL schemes allows 3
    retries in total with backoff factor 1 and lists the status codes 429,
    500, 502, 503 and 504; but every request of the client is a POST, and
    for a POST urllib3 applies no status list: no response is sent again
    for its status, listed or not, and no read failure is retried either.
    A listed status is retried for a GET, which the client never sends.
    So a 429 or 5xx answer fails the request at once. *)
Theorem forced_status_not_retried_for_post
  (net : list HttpCall -> HttpCall -> http_outcome)
  (base_url username password : string) (timeout : Z)
  (payload : value) (calls : list HttpCall) :
  exists call adapter,
    snd (_make_request net
           (OllamaAPI_init base_url username password timeout) payload calls)
    = calls ++ [call] /\
    call_method call = "POST" /\
    adapters (call_session call) !! "http://" = Some adapter /\
    adapters (call_session call) !! "https://" = Some adapter /\
    total (max_retries adapter) = 3 /\
    backoff_factor (max_retries adapter) = 1 /\
    status_forcelist (max_retries adapter) = [429; 500; 502; 503; 504] /\
    (forall code has_retry_after,
       is_retry (max_retries adapter) (call_method call) code has_retry_after
       = false) /\
    retries_error (call_method call) read_error = false /\
    retries_error (call_method call) connect_error = true /\
    (forall code,
       is_retry (max_retries adapter) "GET" code false = true <->
       code ∈ [429; 500; 502; 503; 504]) /\
    (forall r,
       net calls call = Responded r ->
       status_code r ∈ [429; 500; 502; 503; 504] ->
       _make_request net
         (OllamaAPI_init base_url username password timeout) payload calls
       = (Raised (RequestFailed (status_error_text r)), calls ++ [call])).
Proof.
  eexists _, _. split; [apply make_request_calls|].
  do 6 (split; [reflexivity|]).
  split; [reflexivity|]. split; [reflexivity|]. split; [reflexivity|].
  split.
  - intros code. unfold is_retry. simpl.
    destruct (bool_decide (code ∈ [429; 500; 502; 503; 504])) eqn:E.
    + apply bool_decide_eq_true in E. tauto.
    + apply bool_decide_eq_false in E. split; [discriminate | tauto].
  - intros r Hnet Hcode.
    apply make_request_error_status; [exact Hnet|].
    unfold is_error_status.
    repeat (apply elem_of_cons in Hcode; destruct Hcode as [-> | Hcode];
            [reflexivity|]).
    by apply elem_of_nil in Hcode.
Qed.

Lemma forced_status_not_retried_for_post_witness :
  is_retry (mkRetry 3 1 [429; 500; 502; 503; 504]) "POST" 503 false = false /\
  is_retry (mkRetry 3 1 [429; 500; 502; 503; 504]) "GET" 503 false = true /\
  _make_request (Scenario.always Scenario.unavailable) Scenario.api PyNone []
  = (Raised (RequestFailed
       ("503 Server Error: Service Unavailable for url: " +:+ Scenario.endpoint)),
     [post_call Scenario.api PyNone]).
Proof.
  destruct (forced_status_not_retried_for_post
              (Scenario.always Scenario.unavailable)
              "https://theaisource-u29564.vm.elestio.app:57987"
              "root" "secret" default_timeout PyNone [])
    as (call & adapter & Hcalls & Hmethod & _ & Hmount & _ & _ & Hlist
        & Hpost & _ & _ & Hget & Hfail).
  injection Hcalls as <-. injection Hmount as <-.
  split; [exact (Hpost 503 false)|]. split.
  - apply Hget. by apply (bool_decide_unpack _).
  - apply (Hfail (mkResponse 503 "Service Unavailable" Scenario.endpoint
                    (NotJson "Expecting value: line 1 column 1 (char 0)")));
      [reflexivity | by apply (bool_decide_unpack _)].
Defined.

(** ** One request *)

(** C8.  A request is one call of [Session.post]: method POST, the URL
    [base_url] followed by /v1/chat/completions, the single header
    Content-Type: application/json, the payload as the JSON body, the
    client's timeout, and a session whose credentials are the username and
    password the client was constructed with. *)
Theorem make_request_is_one_post
  (net : list HttpCall -> HttpCall -> http_outcome)
  (base_url username password : string) (timeout : Z)
  (payload : value) (calls : list HttpCall) :
  exists call,
    snd (_make_request net
           (OllamaAPI_init base_url username password timeout) payload calls)
    = calls ++ [call] /\
    call_method call = "POST" /\
    call_url call = base_url +:+ "/v1/chat/completions" /\
    call_headers call = [("Content-Type", "application/json")] /\
    call_json call = payload /\
    auth (call_session call) = Some (username, password) /\
    call_timeout call = timeout.
Proof.
  eexists. split; [apply make_request_calls|].
  repeat split.
Qed.




(** ** The payload variants *)

(** C2.  Two payloads are built: the first carries the caller's
    temperature and max_tokens 2000, the second temperature 0.5 and
    max_tokens 1000, whatever the caller passed; and the requests of a call
    carry these payloads, the first alone or the first and then the
    second. *)
Theorem payload_settings
  (net : list HttpCall -> HttpCall -> http_outcome) (self : OllamaAPI)
  (messages : list value) (temperature : float) (calls : list HttpCall) :
  exists primary backup,
    payloads messages temperature = [primary; backup] /\
    dict_field primary "temperature" = Some (PyFloat temperature) /\
    dict_field primary "max_tokens" = Some (PyInt 2000) /\
    dict_field backup "temperature" = Some (PyFloat 0.5) /\
    dict_field backup "max_tokens" = Some (PyInt 1000) /\
    (snd (generate_with_backup net self messages temperature calls)
       = calls ++ [post_call self primary] \/
     snd (generate_with_backup net self messages temperature calls)
       = calls ++ [post_call self primary; post_call self backup]).
Proof.
  do 2 eexists. split; [reflexivity|].
  do 4 (split; [reflexivity|]).
  by apply generate_calls.
Qed.

(** C9.  In every call of [generate_with_backup] the requests sent carry
    the first payload, or the first and then the second, and both payloads
    hold the caller's messages as they were passed, in the same order; the
    two payloads have the same keys in the same order, the same model and
    the same stream flag, and every key other than temperature and
    max_tokens has the same entry in both. *)
Theorem payloads_differ_in_settings_only
  (net : list HttpCall -> HttpCall -> http_outcome) (self : OllamaAPI)
  (messages : list value) (temperature : float) (calls : list HttpCall) :
  exists primary backup,
    payloads messages temperature = [PyDict primary; PyDict backup] /\
    (map call_json
       (drop (length calls)
          (snd (generate_with_backup net self messages temperature calls)))
     = [PyDict primary] \/
     map call_json
       (drop (length calls)
          (snd (generate_with_backup net self messages temperature calls)))
     = [PyDict primary; PyDict backup]) /\
    (snd (generate_with_backup net self messages temperature calls)
     = calls ++ [post_call self (PyDict primary)] \/
     snd (generate_with_backup net self messages temperature calls)
     = calls ++ [post_call self (PyDict primary); post_call self (PyDict backup)]) /\
    dict_lookup "messages" primary = Some (PyList messages) /\
    dict_lookup "messages" backup = Some (PyList messages) /\
    dict_lookup "model" primary = dict_lookup "model" backup /\
    dict_lookup "stream" primary = dict_lookup "stream" backup /\
    map fst primary = map fst backup /\
    (forall key, key <> "temperature" -> key <> "max_tokens" ->
       dict_lookup key primary = dict_lookup key backup).
Proof.
  pose proof (generate_calls net self messages temperature _ _ calls eq_refl)
    as Hcalls.
  do 2 eexists. split; [reflexivity|].
  split; [|split; [exact Hcalls|]].
  - destruct Hcalls as [-> | ->]; [left | right];
      by rewrite drop_app_length.
  - do 5 (split; [reflexivity|]).
    intros key Ht Hm. simpl.
    destruct (String.eqb_spec key "model"); [reflexivity|].
    destruct (String.eqb_spec key "messages"); [reflexivity|].
    destruct (String.eqb_spec key "temperature"); [contradiction|].
    destruct (String.eqb_spec key "max_tokens"); [contradiction|].
    reflexivity.
Qed.

Lemma payloads_differ_in_settings_only_witness :
  exists primary backup,
    map call_json
      (snd (generate_with_backup
              (Scenario.first_then Scenario.unavailable
                 (Scenario.ok (Scenario.completion "Project summary")))
              Scenario.api Scenario.messages Scenario.temperature []))
    = [PyDict primary; PyDict backup] /\
    dict_lookup "messages" primary = Some (PyList Scenario.messages) /\
    dict_lookup "messages" backup = Some (PyList Scenario.messages) /\
    dict_lookup "stream" primary = dict_lookup "stream" backup.
Proof.
  destruct (payloads_differ_in_settings_only
              (Scenario.first_then Scenario.unavailable
                 (Scenario.ok (Scenario.completion "Project summary")))
              Scenario.api Scenario.messages Scenario.temperature [])
    as (primary & backup & Hp & _ & _ & Hm1 & Hm2 & _ & _ & _ & Hsame).
  exists primary, backup.
  injection Hp as <- <-.
  split; [reflexivity|]. split; [exact Hm1|]. split; [exact Hm2|].
  apply Hsame; discriminate.
Defined.

(** ** Generation with fallback *)

(** C1, as amended.  The payloads are tried in order.  When the request
    for the first returns a response from which the text can be extracted,
    the call returns that text with that response after this one request.
    When the first attempt fails (its request raises, or the extraction
    from its response does) and the request for the second returns a
    response from which the text can be extracted, the call returns the
    text of the second response with it, after exactly two requests. *)
Theorem generate_tries_in_order
  (net : list HttpCall -> HttpCall -> http_outcome) (self : OllamaAPI)
  (messages : list value) (temperature : float)
  (primary backup : value) (calls : list HttpCall) :
  payloads messages temperature = [primary; backup] ->
  (forall response text,
      fst (_make_request net self primary calls) = Returned response ->
      extract_content response = Returned text ->
      generate_with_backup net self messages temperature calls
      = (Returned (text, response), calls ++ [post_call self primary])) /\
  (forall e response text,
      fst (attempt net self primary calls) = Raised e ->
      fst (_make_request net self backup (calls ++ [post_call self primary]))
      = Returned response ->
      extract_content response = Returned text ->
      generate_with_backup net self messages temperature calls
      = (Returned (text, response),
         calls ++ [post_call self primary; post_call self backup])).
Proof.
  intros Hp. unfold generate_with_backup. rewrite Hp. split.
  - intros response text Hr He.
    apply try_payloads_returned. by apply attempt_request_returned.
  - intros e response text H1 Hr He.
    rewrite (try_payloads_raised _ _ _ _ _ _ _ H1).
    erewrite try_payloads_returned by (by apply attempt_request_returned).
    rewrite <- app_assoc. reflexivity.
Qed.

Lemma generate_tries_in_order_witness :
  generate_with_backup
    (Scenario.first_then Scenario.unavailable
       (Scenario.ok (Scenario.completion "Project summary")))
    Scenario.api Scenario.messages Scenario.temperature []
  = (Returned (PyStr "Project summary", Scenario.completion "Project summary"),
     map (post_call Scenario.api)
       (payloads Scenario.messages Scenario.temperature)).
Proof.
  eapply (generate_tries_in_order
            (Scenario.first_then Scenario.unavailable
               (Scenario.ok (Scenario.completion "Project summary")))
            Scenario.api Scenario.messages Scenario.temperature _ _ []
            eq_refl); reflexivity.
Defined.

(** The claim C1 as it is written fails.  The request for the first
    payload succeeds with a body whose [choices] list is empty; the call
    does not return on it: the second payload is sent as well, and the
    result is made from the second response. *)
Lemma generate_primary_success_not_final :
  fst (_make_request
         (Scenario.first_then (Scenario.ok (PyDict [("choices", PyList [])]))
            (Scenario.ok (Scenario.completion "Project summary")))
         Scenario.api
         (hd PyNone (payloads Scenario.messages Scenario.temperature)) [])
  = Returned (PyDict [("choices", PyList [])]) /\
  generate_with_backup
    (Scenario.first_then (Scenario.ok (PyDict [("choices", PyList [])]))
       (Scenario.ok (Scenario.completion "Project summary")))
    Scenario.api Scenario.messages Scenario.temperature []
  = (Returned (PyStr "Project summary", Scenario.completion "Project summary"),
     map (post_call Scenario.api)
       (payloads Scenario.messages Scenario.temperature)) /\
  ~ (forall (net : list HttpCall -> HttpCall -> http_outcome)
       (self : OllamaAPI) (messages : list value) (temperature : float)
       (primary backup : value) (calls : list HttpCall) (response : value),
       payloads messages temperature = [primary; backup] ->
       fst (_make_request net self primary calls) = Returned response ->
       exists text,
         generate_with_backup net self messages temperature calls
         = (Returned (text, response), calls ++ [post_call self primary])).
Proof.
  split; [reflexivity|]. split; [reflexivity|].
  intros H.
  destruct (H (Scenario.first_then (Scenario.ok (PyDict [("choices", PyList [])]))
                 (Scenario.ok (Scenario.completion "Project summary")))
              Scenario.api Scenario.messages Scenario.temperature _ _ []
              (PyDict [("choices", PyList [])]) eq_refl eq_refl)
    as [text Habs].
  vm_compute in Habs. discriminate Habs.
Qed.

(** C3.  When the requests for both payloads raise, the call raises
    [AllAttemptsFailed] whose message is the fixed prefix followed by the
    description of the second failure; the description of the first
    failure has no part in it. *)
Theorem all_attempts_failed_last_error
  (net : list HttpCall -> HttpCall -> http_outcome) (self : OllamaAPI)
  (messages : list value) (temperature : float)
  (primary backup : value) (calls : list HttpCall) (e1 e2 : exc) :
  payloads messages temperature = [primary; backup] ->
  fst (_make_request net self primary calls) = Raised e1 ->
  fst (_make_request net self backup (calls ++ [post_call self primary]))
  = Raised e2 ->
  generate_with_backup net self messages temperature calls
  = (Raised (PyExc Exception
       ("All generation attempts failed. Last error: " +:+ exc_str e2)),
     calls ++ [post_call self primary; post_call self backup]).
Proof.
  intros Hp H1 H2. unfold generate_with_backup. rewrite Hp.
  apply attempt_request_raised in H1, H2.
  rewrite (try_payloads_raised _ _ _ _ _ _ _ H1).
  rewrite (try_payloads_raised _ _ _ _ _ _ _ H2).
  rewrite try_payloads_exhausted, <- app_assoc. reflexivity.
Qed.

Lemma all_attempts_failed_last_error_witness :
  generate_with_backup (Scenario.first_then Scenario.refused Scenario.unavailable)
    Scenario.api Scenario.messages Scenario.temperature []
  = (Raised (PyExc Exception
       ("All generation attempts failed. Last error: API request failed: " +:+
        "503 Server Error: Service Unavailable for url: " +:+ Scenario.endpoint)),
     map (post_call Scenario.api)
       (payloads Scenario.messages Scenario.temperature)).
Proof.
  exact (all_attempts_failed_last_error
           (Scenario.first_then Scenario.refused Scenario.unavailable)
           Scenario.api Scenario.messages Scenario.temperature _ _ []
           (RequestFailed "HTTPSConnectionPool: Max retries exceeded")
           (RequestFailed
              ("503 Server Error: Service Unavailable for url: " +:+
               Scenario.endpoint))
           eq_refl eq_refl eq_refl).
Defined.

(** C6.  A timeout of [requests] becomes the timeout error of
    [_make_request], and [generate_with_backup] catches it like any other
    failure: after a timeout on the first payload the second is sent;
    after a timeout on the second the call raises [AllAttemptsFailed] with
    the timeout's description.  Whatever happens, an exception that leaves
    [generate_with_backup] is [AllAttemptsFailed], of class [Exception]
    itself, never the timeout error. *)
Theorem timeout_is_caught
  (net : list HttpCall -> HttpCall -> http_outcome) (self : OllamaAPI)
  (messages : list value) (temperature : float)
  (primary backup : value) (calls : list HttpCall) :
  payloads messages temperature = [primary; backup] ->
  (forall c message,
      net calls (post_call self primary) = Failed c message ->
      is_timeout c = true ->
      fst (_make_request net self primary calls) = Raised TimeoutErr /\
      generate_with_backup net self messages temperature calls
      = try_payloads net self [backup] (Some "Request timed out")
          (calls ++ [post_call self primary]) /\
      snd (generate_with_backup net self messages temperature calls)
      = calls ++ [post_call self primary; post_call self backup]) /\
  (forall e1 c message,
      fst (attempt net self primary calls) = Raised e1 ->
      net (calls ++ [post_call self primary]) (post_call self backup)
      = Failed c message ->
      is_timeout c = true ->
      generate_with_backup net self messages temperature calls
      = (Raised (AllAttemptsFailed "Request timed out"),
         calls ++ [post_call self primary; post_call self backup])) /\
  (forall e,
      fst (generate_with_backup net self messages temperature calls) = Raised e ->
      (exists description, e = AllAttemptsFailed description) /\
      exc_class_of e = Exception /\
      isinstance e FuturesTimeoutError = false /\
      isinstance e (Requests Timeout) = false).
Proof.
  intros Hp. split; [|split].
  - intros c message Hnet Hc.
    pose proof (make_request_timeout _ _ _ _ _ _ Hnet Hc) as Hr.
    assert (H1 : fst (attempt net self primary calls) = Raised TimeoutErr)
      by (apply attempt_request_raised; rewrite Hr; reflexivity).
    assert (Hg : generate_with_backup net self messages temperature calls
                 = try_payloads net self [backup] (Some "Request timed out")
                     (calls ++ [post_call self primary])).
    { unfold generate_with_backup. rewrite Hp.
      apply (try_payloads_raised _ _ _ _ _ _ _ H1). }
    split; [rewrite Hr; reflexivity|]. split; [exact Hg|].
    rewrite Hg.
    destruct (fst (attempt net self backup (calls ++ [post_call self primary])))
      as [x|e] eqn:H2.
    + rewrite (try_payloads_returned _ _ _ _ _ _ _ H2).
      simpl. rewrite <- app_assoc. reflexivity.
    + rewrite (try_payloads_raised _ _ _ _ _ _ _ H2).
      simpl. rewrite <- app_assoc. reflexivity.
  - intros e1 c message H1 Hnet Hc.
    pose proof (make_request_timeout _ _ _ _ _ _ Hnet Hc) as Hr.
    assert (H2 : fst (attempt net self backup (calls ++ [post_call self primary]))
                 = Raised TimeoutErr)
      by (apply attempt_request_raised; rewrite Hr; reflexivity).
    unfold generate_with_backup. rewrite Hp.
    rewrite (try_payloads_raised _ _ _ _ _ _ _ H1).
    rewrite (try_payloads_raised _ _ _ _ _ _ _ H2).
    rewrite try_payloads_exhausted, <- app_assoc. reflexivity.
  - intros e. unfold generate_with_backup. rewrite Hp.
    destruct (fst (attempt net self primary calls)) as [x|e1] eqn:H1.
    + rewrite (try_payloads_returned _ _ _ _ _ _ _ H1). discriminate.
    + rewrite (try_payloads_raised _ _ _ _ _ _ _ H1).
      destruct (fst (attempt net self backup (calls ++ [post_call self primary])))
        as [x|e2] eqn:H2.
      * rewrite (try_payloads_returned _ _ _ _ _ _ _ H2). discriminate.
      * rewrite (try_payloads_raised _ _ _ _ _ _ _ H2).
        rewrite try_payloads_exhausted. simpl. intros [= <-].
        split; [eauto|]. repeat split.
Qed.

Lemma timeout_is_caught_witness :
  generate_with_backup
    (Scenario.first_then Scenario.read_timeout
       (Scenario.ok (Scenario.completion "Budget")))
    Scenario.api Scenario.messages Scenario.temperature []
  = (Returned (PyStr "Budget", Scenario.completion "Budget"),
     map (post_call Scenario.api)
       (payloads Scenario.messages Scenario.temperature)) /\
  generate_with_backup (Scenario.always Scenario.read_timeout)
    Scenario.api Scenario.messages Scenario.temperature []
  = (Raised (AllAttemptsFailed "Request timed out"),
     map (post_call Scenario.api)
       (payloads Scenario.messages Scenario.temperature)).
Proof.
  split.
  - destruct (timeout_is_caught
                (Scenario.first_then Scenario.read_timeout
                   (Scenario.ok (Scenario.completion "Budget")))
                Scenario.api Scenario.messages Scenario.temperature _ _ []
                eq_refl) as (Hfirst & _ & _).
    destruct (Hfirst ReadTimeout _ eq_refl eq_refl) as (_ & Hg & _).
    rewrite Hg. reflexivity.
  - destruct (timeout_is_caught (Scenario.always Scenario.read_timeout)
                Scenario.api Scenario.messages Scenario.temperature _ _ []
                eq_refl) as (_ & Hlast & _).
    exact (Hlast TimeoutErr ReadTimeout _ eq_refl eq_refl eq_refl).
Defined.

(** ** Text extraction *)

(** C5.  From a response body without [choices], or whose first choice
    has no [message], or whose message has no [content], the extracted
    text is the empty string, and the call succeeds with it: on the first
    payload at once, and on the second after a failed first attempt. *)
Theorem missing_fields_yield_empty_text
  (net : list HttpCall -> HttpCall -> http_outcome) (self : OllamaAPI)
  (messages : list value) (temperature : float)
  (primary backup : value) (calls : list HttpCall) (response : value) :
  payloads messages temperature = [primary; backup] ->
  lacks_content response ->
  extract_content response = Returned (PyStr "") /\
  (fst (_make_request net self primary calls) = Returned response ->
   generate_with_backup net self messages temperature calls
   = (Returned (PyStr "", response), calls ++ [post_call self primary])) /\
  (forall e,
     fst (attempt net self primary calls) = Raised e ->
     fst (_make_request net self backup (calls ++ [post_call self primary]))
     = Returned response ->
     generate_with_backup net self messages temperature calls
     = (Returned (PyStr "", response),
        calls ++ [post_call self primary; post_call self backup])).
Proof.
  intros Hp Hlacks.
  assert (He : extract_content response = Returned (PyStr "")).
  { destruct Hlacks as [d H1 | d choice others H1 H2
                       | d choice others message H1 H2 H3];
      unfold extract_content, mbind, outcome_bind; simpl.
    - rewrite H1. reflexivity.
    - rewrite H1. simpl. rewrite H2. reflexivity.
    - rewrite H1. simpl. rewrite H2. simpl. rewrite H3. reflexivity. }
  split; [exact He|]. unfold generate_with_backup. rewrite Hp. split.
  - intros Hr. apply try_payloads_returned.
    by apply attempt_request_returned.
  - intros e H1 Hr.
    rewrite (try_payloads_raised _ _ _ _ _ _ _ H1).
    erewrite try_payloads_returned by (by apply attempt_request_returned).
    rewrite <- app_assoc. reflexivity.
Qed.

Lemma missing_fields_yield_empty_text_witness :
  lacks_content (PyDict [("choices", PyList [PyDict [("index", PyInt 0)]])]) /\
  generate_with_backup
    (Scenario.always
       (Scenario.ok (PyDict [("choices", PyList [PyDict [("index", PyInt 0)]])])))
    Scenario.api Scenario.messages Scenario.temperature []
  = (Returned (PyStr "",
               PyDict [("choices", PyList [PyDict [("index", PyInt 0)]])]),
     [post_call Scenario.api
        (hd PyNone (payloads Scenario.messages Scenario.temperature))]).
Proof.
  assert (H : lacks_content
                (PyDict [("choices", PyList [PyDict [("index", PyInt 0)]])]))
    by (eapply lacks_message; reflexivity).
  split; [exact H|].
  destruct (missing_fields_yield_empty_text
              (Scenario.always
                 (Scenario.ok
                    (PyDict [("choices", PyList [PyDict [("index", PyInt 0)]])])))
              Scenario.api Scenario.messages Scenario.temperature _ _ [] _
              eq_refl H) as (_ & Hfirst & _).
  exact (Hfirst eq_refl).
Defined.

(** C10.  A body whose [choices] is present and is the empty list makes
    the extraction raise [IndexError]: the default of [get] is used for an
    absent key only.  The attempt then counts as failed: after the first
    payload the second is sent, and after the second the call raises
    [AllAttemptsFailed] with the description of the [IndexError]. *)
Theorem empty_choices_fail_the_attempt
  (net : list HttpCall -> HttpCall -> http_outcome) (self : OllamaAPI)
  (messages : list value) (temperature : float)
  (primary backup : value) (calls : list HttpCall)
  (d : list (string * value)) :
  payloads messages temperature = [primary; backup] ->
  dict_lookup "choices" d = Some (PyList []) ->
  extract_content (PyDict d)
  = Raised (PyExc IndexError "list index out of range") /\
  (fst (_make_request net self primary calls) = Returned (PyDict d) ->
   generate_with_backup net self messages temperature calls
   = try_payloads net self [backup] (Some "list index out of range")
       (calls ++ [post_call self primary]) /\
   snd (generate_with_backup net self messages temperature calls)
   = calls ++ [post_call self primary; post_call self backup]) /\
  (forall e,
     fst (attempt net self primary calls) = Raised e ->
     fst (_make_request net self backup (calls ++ [post_call self primary]))
     = Returned (PyDict d) ->
     generate_with_backup net self messages temperature calls
     = (Raised (AllAttemptsFailed "list index out of range"),
        calls ++ [post_call self primary; post_call self backup])).
Proof.
  intros Hp Hd.
  assert (He : extract_content (PyDict d)
               = Raised (PyExc IndexError "list index out of range")).
  { unfold extract_content, mbind, outcome_bind. simpl. rewrite Hd.
    reflexivity. }
  split; [exact He|]. unfold generate_with_backup. rewrite Hp. split.
  - intros Hr.
    pose proof (attempt_extraction_raised _ _ _ _ _ _ Hr He) as H1.
    rewrite (try_payloads_raised _ _ _ _ _ _ _ H1).
    split; [reflexivity|].
    destruct (fst (attempt net self backup (calls ++ [post_call self primary])))
      as [x|e] eqn:H2.
    + rewrite (try_payloads_returned _ _ _ _ _ _ _ H2).
      simpl. rewrite <- app_assoc. reflexivity.
    + rewrite (try_payloads_raised _ _ _ _ _ _ _ H2).
      simpl. rewrite <- app_assoc. reflexivity.
  - intros e H1 Hr.
    pose proof (attempt_extraction_raised _ _ _ _ _ _ Hr He) as H2.
    rewrite (try_payloads_raised _ _ _ _ _ _ _ H1).
    rewrite (try_payloads_raised _ _ _ _ _ _ _ H2).
    rewrite try_payloads_exhausted, <- app_assoc. reflexivity.
Qed.

Lemma empty_choices_fail_the_attempt_witness :
  generate_with_backup
    (Scenario.always (Scenario.ok (PyDict [("choices", PyList [])])))
    Scenario.api Scenario.messages Scenario.temperature []
  = (Raised (AllAttemptsFailed "list index out of range"),
     map (post_call Scenario.api)
       (payloads Scenario.messages Scenario.temperature)).
Proof.
  destruct (empty_choices_fail_the_attempt
              (Scenario.always (Scenario.ok (PyDict [("choices", PyList [])])))
              Scenario.api Scenario.messages Scenario.temperature _ _ []
              [("choices", PyList [])] eq_refl eq_refl) as (_ & _ & Hlast).
  exact (Hlast (PyExc IndexError "list index out of range") eq_refl eq_refl).
Defined.

(** ** Further properties of the extraction *)

(** X1.  A body of the expected shape gives its text: when the first
    choice holds a message with a [content], the call returns that content
    with the response, after the one request for the first payload. *)
Theorem content_of_first_choice_is_returned
  (net : list HttpCall -> HttpCall -> http_outcome) (self : OllamaAPI)
  (messages : list value) (temperature : float)
  (primary backup : value) (calls : list HttpCall)
  (d choice message : list (string * value)) (others : list value)
  (content : value) :
  payloads messages temperature = [primary; backup] ->
  dict_lookup "choices" d = Some (PyList (PyDict choice :: others)) ->
  dict_lookup "message" choice = Some (PyDict message) ->
  dict_lookup "content" message = Some content ->
  fst (_make_request net self primary calls) = Returned (PyDict d) ->
  generate_with_backup net self messages temperature calls
  = (Returned (content, PyDict d), calls ++ [post_call self primary]).
Proof.
  intros Hp H1 H2 H3 Hr. unfold generate_with_backup. rewrite Hp.
  apply try_payloads_returned. apply attempt_request_returned; [exact Hr|].
  unfold extract_content, mbind, outcome_bind. simpl.
  rewrite H1. simpl. rewrite H2. simpl. rewrite H3. reflexivity.
Qed.

Lemma content_of_first_choice_is_returned_witness :
  generate_with_backup
    (Scenario.always (Scenario.ok (Scenario.completion "Statement of need")))
    Scenario.api Scenario.messages Scenario.temperature []
  = (Returned (PyStr "Statement of need",
               Scenario.completion "Statement of need"),
     [post_call Scenario.api
        (hd PyNone (payloads Scenario.messages Scenario.temperature))]).
Proof.
  exact (content_of_first_choice_is_returned
           (Scenario.always
              (Scenario.ok (Scenario.completion "Statement of need")))
           Scenario.api Scenario.messages Scenario.temperature _ _ []
           [("choices",
             PyList [PyDict [("message",
                              PyDict [("role", PyStr "assistant");
                                      ("content", PyStr "Statement of need")])]])]
           [("message",
             PyDict [("role", PyStr "assistant");
                     ("content", PyStr "Statement of need")])]
           [("role", PyStr "assistant"); ("content", PyStr "Statement of need")]
           [] (PyStr "Statement of need")
           eq_refl eq_refl eq_refl eq_refl eq_refl).
Defined.

(** X2.  A decoded body that is no dict has no [get]: the extraction
    raises [AttributeError], and the attempt counts as failed although its
    request succeeded. *)
Theorem body_that_is_no_dict_fails_the_attempt
  (net : list HttpCall -> HttpCall -> http_outcome) (self : OllamaAPI)
  (payload response : value) (calls : list HttpCall) :
  (forall d, response <> PyDict d) ->
  fst (_make_request net self payload calls) = Returned response ->
  fst (attempt net self payload calls)
  = Raised (PyExc AttributeError
      ("'" +:+ type_name response +:+ "' object has no attribute 'get'")).
Proof.
  intros Hnd Hr. apply (attempt_extraction_raised _ _ _ _ _ _ Hr).
  destruct response; try reflexivity. by destruct (Hnd d).
Qed.

Lemma body_that_is_no_dict_fails_the_attempt_witness :
  fst (attempt (Scenario.always (Scenario.ok (PyList []))) Scenario.api
         PyNone [])
  = Raised (PyExc AttributeError "'list' object has no attribute 'get'").
Proof.
  apply (body_that_is_no_dict_fails_the_attempt
           (Scenario.always (Scenario.ok (PyList []))) Scenario.api
           PyNone (PyList []) []); [discriminate | reflexivity].
Defined.

(** * The session state *)

(** The loop sets a key exactly when the state does not hold it. *)
Lemma set_missing_lookup (items : list (string * value))
  (state : gmap string value) (key : string) :
  set_missing items state !! key
  = match state !! key with
    | Some v => Some v
    | None => dict_lookup key items
    end.
Proof.
  revert state. induction items as [|[key' v'] rest IH]; intros state; simpl.
  - by destruct (state !! key).
  - rewrite IH. destruct (String.eqb_spec key key') as [->|Hne].
    + destruct (state !! key') eqn:Hk; [by rewrite Hk|].
      by rewrite lookup_insert_eq.
    + destruct (state !! key') eqn:Hk; [reflexivity|].
      by rewrite lookup_insert_ne.
Qed.

(** X3.  [init_session_state] never overwrites: a key that the state holds
    keeps its value, whether it is one of the defaults or not; a key that
    the state lacks gets its default if it has one and stays absent
    otherwise. *)
Theorem init_session_state_keeps_and_fills (state : gmap string value) :
  (forall key v,
     state !! key = Some v -> init_session_state state !! key = Some v) /\
  (forall key,
     state !! key = None ->
     init_session_state state !! key = dict_lookup key defaults).
Proof.
  unfold init_session_state. split.
  - intros key v H. by rewrite set_missing_lookup, H.
  - intros key H. by rewrite set_missing_lookup, H.
Qed.

Lemma init_session_state_keeps_and_fills_witness :
  init_session_state (<["temperature" := PyFloat 0.25]> ∅) !! "temperature"
  = Some (PyFloat 0.25) /\
  init_session_state (<["temperature" := PyFloat 0.25]> ∅) !! "max_tokens"
  = Some (PyInt 2000) /\
  init_session_state (<["temperature" := PyFloat 0.25]> ∅) !! "theme" = None.
Proof.
  destruct (init_session_state_keeps_and_fills
              (<["temperature" := PyFloat 0.25]> ∅)) as [Hkeep Hfill].
  split; [apply Hkeep; reflexivity|].
  split; [rewrite Hfill; reflexivity|].
  rewrite Hfill; reflexivity.
Defined.

(** X4.  Running [init_session_state] again changes nothing, as on every
    rerun of the script. *)
Theorem init_session_state_idempotent (state : gmap string value) :
  init_session_state (init_session_state state) = init_session_state state.
Proof.
  apply map_eq. intros key. unfold init_session_state.
  rewrite (set_missing_lookup defaults (set_missing defaults state)).
  rewrite set_missing_lookup.
  destruct (state !! key); [reflexivity|].
  by destruct (dict_lookup key defaults).
Qed.

(** * The script *)

Section ScriptProperties.

Variable net : list HttpCall -> HttpCall -> http_outcome.
Variable json_dumps : value -> outcome string.
Variable missing_attribute : string -> string.
Variable browser : Browser.

(** A call of [generate_with_backup] returns a text with its response or
    raises [AllAttemptsFailed]. *)
Lemma generate_ends self messages temperature calls :
  (exists text response,
     fst (generate_with_backup net self messages temperature calls)
     = Returned (text, response)) \/
  (exists description,
     fst (generate_with_backup net self messages temperature calls)
     = Raised (AllAttemptsFailed description)).
Proof.
  unfold generate_with_backup, payloads.
  match goal with
  | |- context [try_payloads net self [?p; ?q] None calls] =>
      set (primary := p); set (backup := q)
  end.
  destruct (fst (attempt net self primary calls)) as [[text response]|e1] eqn:H1.
  - left. rewrite (try_payloads_returned _ _ _ _ _ _ _ H1). eauto.
  - rewrite (try_payloads_raised _ _ _ _ _ _ _ H1).
    destruct (fst (attempt net self backup (calls ++ [post_call self primary])))
      as [[text response]|e2] eqn:H2.
    + left. rewrite (try_payloads_returned _ _ _ _ _ _ _ H2). eauto.
    + right. rewrite (try_payloads_raised _ _ _ _ _ _ _ H2).
      rewrite try_payloads_exhausted. eauto.
Qed.

Lemma session_getattr_some name w v :
  session_state w !! name = Some v ->
  session_getattr missing_attribute name w = Some (Returned v, w).
Proof. intros H. unfold session_getattr. by rewrite H. Qed.

Lemma session_getattr_none name w :
  session_state w !! name = None ->
  session_getattr missing_attribute name w
  = Some (Raised (PyExc AttributeError (missing_attribute name)), w).
Proof. intros H. unfold session_getattr. by rewrite H. Qed.

(** The run of [generate_grant_section] when the state holds a float
    temperature, by what [generate_with_backup] does. *)
Lemma generate_grant_section_run self grant_details w dumped temperature :
  json_dumps grant_details = Returned dumped ->
  session_state w !! "temperature" = Some (PyFloat temperature) ->
  generate_grant_section net json_dumps missing_attribute self grant_details w
  = match generate_with_backup net (api self)
            (grant_messages dumped) temperature (http_calls w)
    with
    | (Returned (content, _), calls) =>
        Some (Returned content, mkApp (session_state w) calls (page w))
    | (Raised e, calls) =>
        Some (Returned (PyStr "Unable to generate grant section. Please try again."),
              mkApp (session_state w) calls
                (page w ++ [st_error ("Error generating grant section: " +:+
                                      exc_str e)]))
    end.
Proof.
  intros Hd Ht.
  pose proof (generate_ends (api self) (grant_messages dumped)
                temperature (http_calls w)) as Hends.
  unfold generate_grant_section, run_try, mbind, Run_bind, run_outcome.
  rewrite Hd, (session_getattr_some _ _ _ Ht). unfold network.
  destruct (generate_with_backup net (api self)
              (grant_messages dumped) temperature
              (http_calls w)) as [[[content response]|e] calls]; simpl in *.
  - reflexivity.
  - destruct Hends as [(text & response & H)|(description & H)];
      [discriminate H|]. injection H as ->. reflexivity.
Qed.

(** The widgets are drawn in the order written; the button decides what
    follows. *)
Lemma create_grant_interface_run w :
  create_grant_interface net json_dumps missing_attribute browser w
  = if button_pressed browser "Generate Grant Section" then
      run_try
        (generator ← PostGenerator_init missing_attribute;
         grant_section ←
           generate_grant_section net json_dumps missing_attribute generator
             (grant_details_dict
                (text_input_value browser "Project Name")
                (text_input_value browser "Organization Name")
                (number_input_value browser "Funding Goal ($)")
                (date_input_isoformat browser "Submission Deadline")
                (text_area_value browser "Project Description"));
         display_generated_grant_section grant_section)
        [ (Exception,
           fun e =>
             show (st_error ("Failed to generate grant section: " +:+
                             exc_str e))) ]
        (mkApp (session_state w) (http_calls w)
           (page w ++ form_widgets ++
            [st_spinner "Generating your grant section..."]))
    else
      Some (Returned tt,
            mkApp (session_state w) (http_calls w) (page w ++ form_widgets)).
Proof.
  unfold create_grant_interface, mbind at 1 2 3 4 5 6 7 8, Run_bind, show.
  cbn [session_state http_calls page].
  destruct (button_pressed browser "Generate Grant Section").
  - unfold mbind at 1, Run_bind. cbn [session_state http_calls page].
    unfold form_widgets. repeat rewrite <- app_assoc. reflexivity.
  - unfold mret, Run_ret, form_widgets. repeat rewrite <- app_assoc.
    reflexivity.
Qed.

(** An exception of [json.dumps] leaves [generate_grant_section] as it
    is: line 93 stands before the [try]. *)
Lemma generate_grant_section_dumps_raised
  (self : PostGenerator) (grant_details : value) (w : App) (e : exc) :
  json_dumps grant_details = Raised e ->
  generate_grant_section net json_dumps missing_attribute self grant_details w
  = Some (Raised e, w).
Proof.
  intros Hd. unfold generate_grant_section, mbind, Run_bind, run_outcome.
  by rewrite Hd.
Qed.

Lemma generate_grant_section_without_temperature_eq
  (self : PostGenerator) (grant_details : value) (w : App) (dumped : string) :
  json_dumps grant_details = Returned dumped ->
  session_state w !! "temperature" = None ->
  generate_grant_section net json_dumps missing_attribute self grant_details w
  = Some (Returned (PyStr "Unable to generate grant section. Please try again."),
          mkApp (session_state w) (http_calls w)
            (page w ++ [st_error ("Error generating grant section: " +:+
                                  missing_attribute "temperature")])).
Proof.
  intros Hd Ht.
  unfold generate_grant_section, run_try, mbind, Run_bind, run_outcome.
  rewrite Hd, (session_getattr_none _ _ Ht). reflexivity.
Qed.

(** X5.  When [json.dumps] returns a text for the details and the session
    state holds a float temperature, [generate_grant_section] does not
    raise and leaves the session state as it was: it returns the text that
    [generate_with_backup] returned and draws nothing, or, when all
    attempts failed, it draws one error that quotes the description of
    the failure and returns the fixed apology. *)
Theorem generate_grant_section_never_raises
  (self : PostGenerator) (grant_details : value) (w : App)
  (dumped : string) (temperature : float) :
  json_dumps grant_details = Returned dumped ->
  session_state w !! "temperature" = Some (PyFloat temperature) ->
  exists text w',
    generate_grant_section net json_dumps missing_attribute self grant_details w
    = Some (Returned text, w') /\
    session_state w' = session_state w /\
    http_calls w'
    = snd (generate_with_backup net (api self)
             (grant_messages dumped) temperature
             (http_calls w)) /\
    ((exists response,
        fst (generate_with_backup net (api self)
               (grant_messages dumped) temperature
               (http_calls w)) = Returned (text, response) /\
        page w' = page w) \/
     (exists description,
        fst (generate_with_backup net (api self)
               (grant_messages dumped) temperature
               (http_calls w)) = Raised (AllAttemptsFailed description) /\
        text = PyStr "Unable to generate grant section. Please try again." /\
        page w'
        = page w ++
          [st_error ("Error generating grant section: " +:+
                     "All generation attempts failed. Last error: " +:+
                     description)])).
Proof.
  intros Hd Ht. rewrite (generate_grant_section_run _ _ _ _ _ Hd Ht).
  destruct (generate_ends (api self) (grant_messages dumped)
              temperature (http_calls w))
    as [(text & response & H)|(description & H)].
  - destruct (generate_with_backup net (api self) _ temperature (http_calls w))
      as [o calls]; simpl in H; subst o.
    eexists _, _. split; [reflexivity|]. simpl. eauto 10.
  - destruct (generate_with_backup net (api self) _ temperature (http_calls w))
      as [o calls]; simpl in H; subst o.
    eexists _, _. split; [reflexivity|]. simpl.
    do 2 (split; [reflexivity|]). right. eauto.
Qed.

(** X6.  When [json.dumps] returns a text for the details and the session
    state holds a float temperature, the requests of
    [generate_grant_section] are one or two; each carries the system
    message followed by the user message that embeds that text, and the
    first carries the temperature of the session state. *)
Theorem generate_grant_section_requests
  (self : PostGenerator) (grant_details : value) (w : App)
  (dumped : string) (temperature : float) (o : outcome value) (w' : App) :
  json_dumps grant_details = Returned dumped ->
  session_state w !! "temperature" = Some (PyFloat temperature) ->
  generate_grant_section net json_dumps missing_attribute self grant_details w
  = Some (o, w') ->
  exists primary backup,
    (http_calls w' = http_calls w ++ [post_call (api self) primary] \/
     http_calls w'
     = http_calls w ++
       [post_call (api self) primary; post_call (api self) backup]) /\
    dict_field primary "temperature" = Some (PyFloat temperature) /\
    dict_field primary "messages"
    = Some (PyList
        [ PyDict [ ("role", PyStr "system");
                   ("content", PyStr "You are an expert grant writer.") ];
          PyDict [ ("role", PyStr "user");
                   ("content",
                    PyStr ("Create a grant section using these details: " +:+
                           dumped)) ] ]) /\
    dict_field backup "messages" = dict_field primary "messages".
Proof.
  intros Hd Ht Hrun.
  rewrite (generate_grant_section_run _ _ _ _ _ Hd Ht) in Hrun.
  pose proof (generate_calls net (api self)
                (grant_messages dumped) temperature _ _
                (http_calls w) eq_refl) as Hcalls.
  assert (Hw : http_calls w'
               = snd (generate_with_backup net (api self)
                        (grant_messages dumped) temperature
                        (http_calls w))).
  { destruct (generate_with_backup net (api self) _ temperature (http_calls w))
      as [[[content response]|e] calls]; injection Hrun as _ <-; reflexivity. }
  rewrite Hw. eexists _, _. split; [exact Hcalls|]. repeat split.
Qed.

(** X7.  When [json.dumps] returns a text for the details and the session
    state holds no temperature, [generate_grant_section] makes no request:
    the failed read is caught, reported as an error, and the fixed apology
    is returned. *)
Theorem generate_grant_section_without_temperature
  (self : PostGenerator) (grant_details : value) (w : App) (dumped : string) :
  json_dumps grant_details = Returned dumped ->
  session_state w !! "temperature" = None ->
  generate_grant_section net json_dumps missing_attribute self grant_details w
  = Some (Returned (PyStr "Unable to generate grant section. Please try again."),
          mkApp (session_state w) (http_calls w)
            (page w ++ [st_error ("Error generating grant section: " +:+
                                  missing_attribute "temperature")])).
Proof.
  apply generate_grant_section_without_temperature_eq.
Qed.


(** [PostGenerator()] on a state that holds the three settings as
    strings, and on a state that lacks one of them. *)
Lemma PostGenerator_init_returns w base_url username password :
  session_state w !! "api_url" = Some (PyStr base_url) ->
  session_state w !! "username" = Some (PyStr username) ->
  session_state w !! "password" = Some (PyStr password) ->
  PostGenerator_init missing_attribute w
  = Some (Returned
            (mkPostGenerator
               (OllamaAPI_init base_url username password default_timeout)),
          w).
Proof.
  intros Ha Hu Hp. unfold PostGenerator_init, mbind, Run_bind.
  rewrite (session_getattr_some _ _ _ Ha), (session_getattr_some _ _ _ Hu),
    (session_getattr_some _ _ _ Hp).
  reflexivity.
Qed.

Lemma PostGenerator_init_raises w :
  session_state w !! "api_url" = None \/
  session_state w !! "username" = None \/
  session_state w !! "password" = None ->
  exists name,
    (name = "api_url" \/ name = "username" \/ name = "password") /\
    session_state w !! name = None /\
    PostGenerator_init missing_attribute w
    = Some (Raised (PyExc AttributeError (missing_attribute name)), w).
Proof.
  intros Hmissing. unfold PostGenerator_init, mbind, Run_bind.
  destruct (session_state w !! "api_url") as [a|] eqn:Ha.
  - rewrite (session_getattr_some _ _ _ Ha).
    destruct (session_state w !! "username") as [u|] eqn:Hu.
    + rewrite (session_getattr_some _ _ _ Hu).
      destruct (session_state w !! "password") as [p|] eqn:Hp.
      * destruct Hmissing as [H|[H|H]]; discriminate H.
      * rewrite (session_getattr_none _ _ Hp). exists "password". auto.
    + rewrite (session_getattr_none _ _ Hu). exists "username". auto.
  - rewrite (session_getattr_none _ _ Ha). exists "api_url". auto.
Qed.

(** X9.  When the button is pressed, the session state holds the three
    connection settings as strings and a float temperature, and
    [json.dumps] returns a text for the details entered, the handler
    never reports [Failed to generate grant section] and does not raise:
    it ends by drawing the result area, with the generated text, or, after
    the error of [generate_grant_section], with the apology.  The client
    it uses is built from the settings of the session state with the
    default timeout. *)
Theorem create_grant_interface_shows_result
  (w : App) (base_url username password dumped : string)
  (temperature : float) :
  button_pressed browser "Generate Grant Section" = true ->
  json_dumps
    (grant_details_dict
       (text_input_value browser "Project Name")
       (text_input_value browser "Organization Name")
       (number_input_value browser "Funding Goal ($)")
       (date_input_isoformat browser "Submission Deadline")
       (text_area_value browser "Project Description"))
  = Returned dumped ->
  session_state w !! "api_url" = Some (PyStr base_url) ->
  session_state w !! "username" = Some (PyStr username) ->
  session_state w !! "password" = Some (PyStr password) ->
  session_state w !! "temperature" = Some (PyFloat temperature) ->
  exists text shown w',
    create_grant_interface net json_dumps missing_attribute browser w
    = Some (Returned tt, w') /\
    session_state w' = session_state w /\
    page w'
    = page w ++ form_widgets ++
      [st_spinner "Generating your grant section..."] ++ shown ++
      result_widgets text /\
    http_calls w'
    = snd (generate_with_backup net
             (OllamaAPI_init base_url username password default_timeout)
             (grant_messages dumped)
             temperature (http_calls w)) /\
    ((exists response,
        fst (generate_with_backup net
               (OllamaAPI_init base_url username password default_timeout)
               (grant_messages dumped)
               temperature (http_calls w)) = Returned (text, response) /\
        shown = []) \/
     (exists description,
        fst (generate_with_backup net
               (OllamaAPI_init base_url username password default_timeout)
               (grant_messages dumped)
               temperature (http_calls w))
        = Raised (AllAttemptsFailed description) /\
        text = PyStr "Unable to generate grant section. Please try again." /\
        shown = [st_error ("Error generating grant section: " +:+
                           "All generation attempts failed. Last error: " +:+
                           description)])).
Proof.
  intros Hpressed Hd Ha Hu Hp Ht.
  rewrite create_grant_interface_run, Hpressed.
  unfold run_try, mbind at 1, Run_bind.
  rewrite (PostGenerator_init_returns _ base_url username password)
    by (simpl; assumption).
  unfold mbind at 1, Run_bind.
  rewrite (generate_grant_section_run _ _ _ dumped temperature Hd)
    by (simpl; assumption).
  cbn [api session_state http_calls page].
  pose proof (generate_ends
                (OllamaAPI_init base_url username password default_timeout)
                (grant_messages dumped) temperature (http_calls w))
    as Hends.
  destruct (generate_with_backup net
              (OllamaAPI_init base_url username password default_timeout)
              (grant_messages dumped) temperature (http_calls w))
    as [o calls].
  destruct Hends as [(text & response & H)|(description & H)];
    simpl in H; subst o.
  - exists text, [], (mkApp (session_state w) calls
                        (page w ++ form_widgets ++
                         [st_spinner "Generating your grant section..."] ++
                         result_widgets text)).
    split.
    + unfold display_generated_grant_section, mbind, Run_bind, show,
        result_widgets.
      cbn [session_state http_calls page].
      repeat rewrite <- app_assoc. reflexivity.
    + simpl. eauto 10.
  - exists (PyStr "Unable to generate grant section. Please try again."),
      [st_error ("Error generating grant section: " +:+
                 "All generation attempts failed. Last error: " +:+
                 description)],
      (mkApp (session_state w) calls
         (page w ++ form_widgets ++
          [st_spinner "Generating your grant section..."] ++
          [st_error ("Error generating grant section: " +:+
                     "All generation attempts failed. Last error: " +:+
                     description)] ++
          result_widgets
            (PyStr "Unable to generate grant section. Please try again."))).
    split.
    + unfold display_generated_grant_section, mbind, Run_bind, show,
        result_widgets.
      cbn [session_state http_calls page].
      repeat rewrite <- app_assoc. reflexivity.
    + simpl. do 3 (split; [reflexivity|]). right. eauto.
Qed.

(** X10.  When the button is pressed and the session state lacks one of
    the three connection settings, no request is made and no result area
    is drawn: the [AttributeError] of the missing setting is reported under
    [Failed to generate grant section], and the handler returns. *)
Theorem create_grant_interface_without_settings (w : App) :
  button_pressed browser "Generate Grant Section" = true ->
  session_state w !! "api_url" = None \/
  session_state w !! "username" = None \/
  session_state w !! "password" = None ->
  exists name,
    (name = "api_url" \/ name = "username" \/ name = "password") /\
    session_state w !! name = None /\
    create_grant_interface net json_dumps missing_attribute browser w
    = Some (Returned tt,
            mkApp (session_state w) (http_calls w)
              (page w ++ form_widgets ++
               [ st_spinner "Generating your grant section...";
                 st_error ("Failed to generate grant section: " +:+
                           missing_attribute name) ])).
Proof.
  intros Hpressed Hmissing.
  rewrite create_grant_interface_run, Hpressed.
  destruct (PostGenerator_init_raises
              (mkApp (session_state w) (http_calls w)
                 (page w ++ form_widgets ++
                  [st_spinner "Generating your grant section..."]))
              Hmissing) as (name & Hname & Hnone & Hinit).
  exists name. split; [exact Hname|]. split; [exact Hnone|].
  unfold run_try, mbind at 1, Run_bind. rewrite Hinit.
  unfold run_handle, show. simpl.
  repeat rewrite <- app_assoc. reflexivity.
Qed.

(** Until the button is pressed the page makes no request, draws the form
    and nothing else, and leaves the session state alone. *)
Lemma create_grant_interface_idle (w : App) :
  button_pressed browser "Generate Grant Section" = false ->
  create_grant_interface net json_dumps missing_attribute browser w
  = Some (Returned tt,
          mkApp (session_state w) (http_calls w) (page w ++ form_widgets)).
Proof.
  intros Hidle. by rewrite create_grant_interface_run, Hidle.
Qed.

(** What a connection setting is after [init_session_state], when the
    state held it, if at all, as a string. *)
Lemma setting_after_init (state : gmap string value) (name : string) :
  name = "api_url" \/ name = "username" \/ name = "password" ->
  (forall v, state !! name = Some v -> exists text, v = PyStr text) ->
  exists text,
    init_session_state state !! name = Some (PyStr text) /\
    (state !! name = Some (PyStr text) \/
     state !! name = None /\ dict_lookup name defaults = Some (PyStr text)).
Proof.
  intros Hname Htyped. unfold init_session_state. rewrite set_missing_lookup.
  destruct (state !! name) as [v|] eqn:Hv.
  - destruct (Htyped v eq_refl) as [text ->]. eauto.
  - destruct Hname as [->|[->| ->]]; simpl; eauto.
Qed.

(** X11.  After [init_session_state], on a state that held each of the
    three connection settings as a string or not at all, [PostGenerator()]
    returns a client and does not raise: each setting of the client is the
    one the state held, or the default where it held none, and the timeout
    is 90. *)
Theorem post_generator_after_init
  (state : gmap string value) (calls : list HttpCall) (drawn : list ui_event) :
  (forall name v,
     name = "api_url" \/ name = "username" \/ name = "password" ->
     state !! name = Some v -> exists text, v = PyStr text) ->
  exists base_url username password,
    PostGenerator_init missing_attribute
      (mkApp (init_session_state state) calls drawn)
    = Some (Returned (mkPostGenerator
                        (OllamaAPI_init base_url username password 90)),
            mkApp (init_session_state state) calls drawn) /\
    (state !! "api_url" = Some (PyStr base_url) \/
     state !! "api_url" = None /\
     dict_lookup "api_url" defaults = Some (PyStr base_url)) /\
    (state !! "username" = Some (PyStr username) \/
     state !! "username" = None /\
     dict_lookup "username" defaults = Some (PyStr username)) /\
    (state !! "password" = Some (PyStr password) \/
     state !! "password" = None /\
     dict_lookup "password" defaults = Some (PyStr password)).
Proof.
  intros Htyped.
  destruct (setting_after_init state "api_url") as (base_url & Ha & Ha');
    [auto | intros v; apply Htyped; auto |].
  destruct (setting_after_init state "username") as (username & Hu & Hu');
    [auto | intros v; apply Htyped; auto |].
  destruct (setting_after_init state "password") as (password & Hp & Hp');
    [auto | intros v; apply Htyped; auto |].
  exists base_url, username, password.
  split; [|auto]. by apply PostGenerator_init_returns.
Qed.

(** X13.  When the button is pressed, the session state holds the three
    connection settings as strings, and [json.dumps] raises on the details
    entered, [generate_grant_section] raises that exception, line 93
    standing before its [try]; in the handler it reaches the outer
    [except], which reports it under [Failed to generate grant section]:
    no request is made, no result area is drawn, and the handler
    returns. *)
Theorem create_grant_interface_dumps_raises
  (w : App) (base_url username password : string) (e : exc) :
  button_pressed browser "Generate Grant Section" = true ->
  json_dumps
    (grant_details_dict
       (text_input_value browser "Project Name")
       (text_input_value browser "Organization Name")
       (number_input_value browser "Funding Goal ($)")
       (date_input_isoformat browser "Submission Deadline")
       (text_area_value browser "Project Description"))
  = Raised e ->
  isinstance e Exception = true ->
  session_state w !! "api_url" = Some (PyStr base_url) ->
  session_state w !! "username" = Some (PyStr username) ->
  session_state w !! "password" = Some (PyStr password) ->
  (forall self w0,
     generate_grant_section net json_dumps missing_attribute self
       (grant_details_dict
          (text_input_value browser "Project Name")
          (text_input_value browser "Organization Name")
          (number_input_value browser "Funding Goal ($)")
          (date_input_isoformat browser "Submission Deadline")
          (text_area_value browser "Project Description")) w0
     = Some (Raised e, w0)) /\
  create_grant_interface net json_dumps missing_attribute browser w
  = Some (Returned tt,
          mkApp (session_state w) (http_calls w)
            (page w ++ form_widgets ++
             [ st_spinner "Generating your grant section...";
               st_error ("Failed to generate grant section: " +:+
                         exc_str e) ])).
Proof.
  intros Hpressed Hd He Ha Hu Hp. split.
  - intros self w0. by apply generate_grant_section_dumps_raised.
  - rewrite create_grant_interface_run, Hpressed.
    unfold run_try, mbind at 1, Run_bind.
    rewrite (PostGenerator_init_returns _ base_url username password)
      by (simpl; assumption).
    unfold mbind at 1, Run_bind.
    rewrite (generate_grant_section_dumps_raised _ _ _ _ Hd).
    unfold run_handle. rewrite He. unfold show. simpl.
    repeat rewrite <- app_assoc. reflexivity.
Qed.

(** X12.  [main] never reaches the grant tab.  It configures the page,
    initialises the session state, draws the title and the tabs, and then
    raises [NameError]: the first tab calls [create_post_interface], a
    name that app.py binds nowhere.  No request is made and no widget of
    the grant form is drawn. *)
Theorem main_raises_name_error (w : App) :
  main net json_dumps missing_attribute browser w
  = Some (Raised (PyExc NameError "name 'create_post_interface' is not defined"),
          mkApp (init_session_state (session_state w)) (http_calls w)
            (page w ++ main_widgets)).
Proof.
  unfold main, mbind, Run_bind, show, call_global, update_session, run_raise.
  simpl. unfold main_widgets. repeat rewrite <- app_assoc. reflexivity.
Qed.

End ScriptProperties.

(** ** The visit, run *)

Lemma generate_grant_section_never_raises_witness :
  exists text w',
    generate_grant_section (Scenario.always Scenario.unavailable) Visit.dumps
      Visit.missing_attribute (mkPostGenerator Visit.client) Visit.details
      Visit.ready
    = Some (Returned text, w') /\
    session_state w' = session_state Visit.ready.
Proof.
  destruct (generate_grant_section_never_raises
              (Scenario.always Scenario.unavailable) Visit.dumps
              Visit.missing_attribute (mkPostGenerator Visit.client)
              Visit.details Visit.ready Visit.dumped Scenario.temperature
              eq_refl eq_refl)
    as (text & w' & Hrun & Hstate & _).
  exists text, w'. split; assumption.
Defined.

Lemma generate_grant_section_requests_witness :
  exists primary backup,
    ([post_call Visit.client
        (hd PyNone (payloads (grant_messages Visit.dumped)
                      Scenario.temperature))]
     = [] ++ [post_call Visit.client primary] \/
     [post_call Visit.client
        (hd PyNone (payloads (grant_messages Visit.dumped)
                      Scenario.temperature))]
     = [] ++ [post_call Visit.client primary; post_call Visit.client backup]) /\
    dict_field primary "temperature" = Some (PyFloat Scenario.temperature) /\
    dict_field backup "messages" = dict_field primary "messages".
Proof.
  destruct (generate_grant_section_requests
              (Scenario.always (Scenario.ok (Scenario.completion "Abstract")))
              Visit.dumps Visit.missing_attribute
              (mkPostGenerator Visit.client) Visit.details Visit.ready
              Visit.dumped Scenario.temperature (Returned (PyStr "Abstract"))
              (mkApp (session_state Visit.ready)
                 [post_call Visit.client
                    (hd PyNone
                       (payloads (grant_messages Visit.dumped)
                          Scenario.temperature))] [])
              eq_refl eq_refl eq_refl)
    as (primary & backup & Hcalls & Htemperature & _ & Hmessages).
  exists primary, backup. split; [exact Hcalls|]. split; assumption.
Defined.

Lemma generate_grant_section_without_temperature_witness :
  generate_grant_section (Scenario.always Scenario.refused) Visit.dumps
    Visit.missing_attribute (mkPostGenerator Visit.client) Visit.details
    Visit.fresh
  = Some (Returned (PyStr "Unable to generate grant section. Please try again."),
          mkApp ∅ []
            [st_error ("Error generating grant section: " +:+
                       "st.session_state has no attribute 'temperature'")]).
Proof.
  exact (generate_grant_section_without_temperature
           (Scenario.always Scenario.refused) Visit.dumps
           Visit.missing_attribute (mkPostGenerator Visit.client)
           Visit.details Visit.fresh Visit.dumped eq_refl eq_refl).
Defined.


Lemma create_grant_interface_shows_result_witness :
  exists text shown w',
    create_grant_interface (Scenario.always Scenario.unavailable) Visit.dumps
      Visit.missing_attribute Visit.browser Visit.ready
    = Some (Returned tt, w') /\
    page w'
    = form_widgets ++ [st_spinner "Generating your grant section..."] ++
      shown ++ result_widgets text.
Proof.
  destruct (create_grant_interface_shows_result
              (Scenario.always Scenario.unavailable) Visit.dumps
              Visit.missing_attribute Visit.browser Visit.ready
              "https://theaisource-u29564.vm.elestio.app:57987" "root"
              (password Visit.client) Visit.dumped Scenario.temperature
              eq_refl eq_refl eq_refl eq_refl eq_refl eq_refl)
    as (text & shown & w' & Hrun & _ & Hpage & _).
  exists text, shown, w'. split; [exact Hrun | exact Hpage].
Defined.

Lemma create_grant_interface_without_settings_witness :
  exists name,
    create_grant_interface (Scenario.always Scenario.refused) Visit.dumps
      Visit.missing_attribute Visit.browser Visit.fresh
    = Some (Returned tt,
            mkApp ∅ []
              (form_widgets ++
               [ st_spinner "Generating your grant section...";
                 st_error ("Failed to generate grant section: " +:+
                           Visit.missing_attribute name) ])).
Proof.
  destruct (create_grant_interface_without_settings
              (Scenario.always Scenario.refused) Visit.dumps
              Visit.missing_attribute Visit.browser Visit.fresh
              eq_refl (or_introl eq_refl))
    as (name & _ & _ & Hrun).
  exists name. exact Hrun.
Defined.

Lemma post_generator_after_init_witness :
  exists base_url username password,
    PostGenerator_init Visit.missing_attribute
      (mkApp (init_session_state
                (<["api_url" := PyStr "http://localhost:11434"]> ∅)) [] [])
    = Some (Returned (mkPostGenerator
                        (OllamaAPI_init base_url username password 90)),
            mkApp (init_session_state
                     (<["api_url" := PyStr "http://localhost:11434"]> ∅)) [] []) /\
    base_url = "http://localhost:11434" /\
    username = "root".
Proof.
  destruct (post_generator_after_init Visit.missing_attribute
              (<["api_url" := PyStr "http://localhost:11434"]> ∅) [] [])
    as (base_url & username & password & Hrun & Ha & Hu & _).
  { intros name v [->|[->| ->]] Hv; vm_compute in Hv;
      [injection Hv as <-; eauto | discriminate Hv | discriminate Hv]. }
  exists base_url, username, password. split; [exact Hrun|]. split.
  - destruct Ha as [Ha|[Ha _]]; vm_compute in Ha;
      [by injection Ha | discriminate Ha].
  - destruct Hu as [Hu|[_ Hu]]; vm_compute in Hu;
      [discriminate Hu | by injection Hu].
Defined.

Lemma create_grant_interface_dumps_raises_witness :
  create_grant_interface (Scenario.always Scenario.refused) Visit.overlong
    Visit.missing_attribute Visit.browser Visit.ready
  = Some (Returned tt,
          mkApp (session_state Visit.ready) (http_calls Visit.ready)
            (page Visit.ready ++ form_widgets ++
             [ st_spinner "Generating your grant section...";
               st_error ("Failed to generate grant section: " +:+
                         "Exceeds the limit (4300 digits) for integer string conversion") ])).
Proof.
  apply (create_grant_interface_dumps_raises
           (Scenario.always Scenario.refused) Visit.overlong
           Visit.missing_attribute Visit.browser Visit.ready
           "https://theaisource-u29564.vm.elestio.app:57987" "root"
           (password Visit.client)
           (PyExc ValueError
              "Exceeds the limit (4300 digits) for integer string conversion"));
    reflexivity.
Defined.
